(** * PyRedis: a key-value store with TTL and whole-file snapshots

    A shallow embedding of the class [PyRedis] of [pyredis.py] and the
    properties of its operations [set], [get], [delete], [save] and [load].

    Conventions of the embedding.
    - A Python [str] is a Rocq [string]; its characters stand for the code
      points below 256.
    - Timestamps and TTLs are integers ([Z], seconds).  Python computes them
      in floating point; only their order and [+] are used here, and
      rounding, overflow, NaN and the infinities are left out.  The sum
      [time.time() + ttl] of [set] is therefore the code's sum only in the
      range where a float holds it exactly ([sums_exact]), and it is formed
      at all only where [float(ttl)] does not overflow ([converts_to_float]);
      several statements about [set] carry these ranges as hypotheses, the
      others are read over the integers.
    - Python values are dynamically typed, and [load] assigns to [self.store]
      and [self.expirations] whatever the snapshot holds, so both attributes
      are values of type [pyval] and every dictionary operation has its
      Python behaviour on a value that is not a [dict].
    - [json.dump] and [json.load] belong to the standard library: a file is
      represented by the document it holds (or by raw text that is not JSON),
      and writing a file always succeeds. *)

From Stdlib Require Import ZArith Ascii String List Bool Lia.
From stdpp Require Import base option gmap strings list fin_maps.

Set Warnings "-register-all".

Local Open Scope string_scope.
Local Open Scope list_scope.
Local Open Scope Z_scope.

(** ** Python values *)

Inductive pyval : Type :=
  | PNone
  | PBool (b : bool)
  | PNum (z : Z)
  | PStr (s : string)
  | PList (l : list pyval)
  | PDict (d : gmap string pyval).

Inductive exn : Type :=
  | ValueError
  | TypeError
  | AttributeError
  | KeyError (key : string)
  | JSONDecodeError
  | FileNotFoundError (filename : string).

Inductive result (A : Type) : Type :=
  | Ok (a : A)
  | Raise (e : exn).
Arguments Ok {A} a.
Arguments Raise {A} e.

(** ** Strings: the three [str] operations used by [set] *)

Module PyStr.

(** [sub in s] on two strings. *)
Fixpoint contains (sub s : string) : bool :=
  String.prefix sub s ||
  match s with
  | EmptyString => false
  | String _ s' => contains sub s'
  end.

(** [s.split(sep)] for a non-empty [sep]: cut at the occurrences of [sep]
    found from left to right.  [skip] counts the characters of a separator
    still to be passed over, [cur] is the piece read so far. *)
Fixpoint split_from (sep : string) (skip : nat) (cur s : string) : list string :=
  match s with
  | EmptyString => [cur]
  | String c s' =>
      match skip with
      | S n => split_from sep n cur s'
      | O =>
          if String.prefix sep s
          then cur :: split_from sep (String.length sep - 1) "" s'
          else split_from sep 0 (cur +:+ String c "") s'
      end
  end.

Definition split (sep s : string) : list string := split_from sep 0 "" s.

(** The characters on which [s.split()] cuts, among the code points below
    256: TAB, LF, VT, FF, CR, FS, GS, RS, US, space, NEL and NBSP. *)
Definition isspace (c : ascii) : bool :=
  let n := nat_of_ascii c in
  ((9 <=? n) && (n <=? 13) || (28 <=? n) && (n <=? 32)
   || (n =? 133) || (n =? 160))%nat.

Definition flush (cur : string) (rest : list string) : list string :=
  match cur with
  | EmptyString => rest
  | _ => cur :: rest
  end.

(** [s.split()]: cut at runs of whitespace, dropping empty pieces. *)
Fixpoint split_ws_from (cur s : string) : list string :=
  match s with
  | EmptyString => flush cur []
  | String c s' =>
      if isspace c
      then flush cur (split_ws_from "" s')
      else split_ws_from (cur +:+ String c "") s'
  end.

Definition split_ws (s : string) : list string := split_ws_from "" s.

End PyStr.

(** ** Operations of Python objects

    Each function gives the outcome of one Python expression on a [pyval]:
    its value, or the exception it raises. *)

Module Py.

(** [key in container] *)
Definition contains (container : pyval) (key : string) : result bool :=
  match container with
  | PDict d => Ok (match d !! key with Some _ => true | None => false end)
  | PList l =>
      Ok (existsb (fun x => match x with
                            | PStr s => String.eqb s key
                            | _ => false
                            end) l)
  | PStr s => Ok (PyStr.contains key s)
  | PNone | PBool _ | PNum _ => Raise TypeError
  end.

(** [container[key]] with a string key *)
Definition getitem (container : pyval) (key : string) : result pyval :=
  match container with
  | PDict d =>
      match d !! key with
      | Some v => Ok v
      | None => Raise (KeyError key)
      end
  | _ => Raise TypeError
  end.

(** [container[key] = value]; the result is the container afterwards *)
Definition setitem (container : pyval) (key : string) (value : pyval)
  : result pyval :=
  match container with
  | PDict d => Ok (PDict (<[key := value]> d))
  | _ => Raise TypeError
  end.

(** [del container[key]]; the result is the container afterwards *)
Definition delitem (container : pyval) (key : string) : result pyval :=
  match container with
  | PDict d =>
      match d !! key with
      | Some _ => Ok (PDict (delete key d))
      | None => Raise (KeyError key)
      end
  | _ => Raise TypeError
  end.

(** [container.get(key)] *)
Definition get (container : pyval) (key : string) : result pyval :=
  match container with
  | PDict d =>
      match d !! key with
      | Some v => Ok v
      | None => Ok PNone
      end
  | _ => Raise AttributeError
  end.

(** [now > v] for a number [now]; [True] and [False] count as 1 and 0. *)
Definition gt (now : Z) (v : pyval) : result bool :=
  match v with
  | PNum z => Ok (z <? now)
  | PBool b => Ok ((if b then 1 else 0) <? now)
  | _ => Raise TypeError
  end.

(** [key, value = tokens]: unpacking a list into two names *)
Definition unpack2 (tokens : list string) : result (string * string) :=
  match tokens with
  | [key; value] => Ok (key, value)
  | _ => Raise ValueError
  end.

(** [isinstance(e, ValueError)]: [json.JSONDecodeError] is a subclass. *)
Definition is_ValueError (e : exn) : bool :=
  match e with
  | ValueError | JSONDecodeError => true
  | _ => false
  end.

Definition is_FileNotFoundError (e : exn) : bool :=
  match e with
  | FileNotFoundError _ => true
  | _ => false
  end.

End Py.

(** ** The world around the store *)

(** What a file holds: text that [json.load] rejects, or a JSON document. *)
Inductive file_data : Type :=
  | NotJSON (text : string)
  | JSON (doc : pyval).

(** The lines [print] writes when [verbose] is set. *)
Inductive line : Type :=
  | Line_set (key value : string)
  | Line_set_error (kv : string)
  | Line_get (key : string) (value : pyval)
  | Line_get_none (key : string)
  | Line_delete (key : string)
  | Line_delete_none (key : string)
  | Line_saved (filename : string)
  | Line_loaded (filename : string)
  | Line_no_data (filename : string)
  | Line_auto_save (enabled : bool).

(** [files] is the file system, [writes] the names of the files opened for
    writing so far (oldest first), [stdout] the lines printed so far;
    [clock n] is what the [n]-th call of [time.time()] returns and [ticks]
    counts the calls made. *)
Record World : Type := mkWorld {
  files : gmap string file_data;
  writes : list string;
  stdout : list line;
  clock : nat -> Z;
  ticks : nat
}.

(** ** Computations that change a state and may raise

    A raised exception leaves the state as it was when it was raised: what
    a method assigned before it failed stays assigned. *)

Definition M (S A : Type) : Type := S -> result A * S.

Definition ret {S A} (a : A) : M S A := fun s => (Ok a, s).

Definition raise {S A} (e : exn) : M S A := fun s => (Raise e, s).

Definition bind {S A B} (c : M S A) (k : A -> M S B) : M S B :=
  fun s =>
    match c s with
    | (Ok a, s') => k a s'
    | (Raise e, s') => (Raise e, s')
    end.

(** [try: c  except E: h], where [handles] tells the instances of [E]. *)
Definition try_except {S A} (c : M S A) (handles : exn -> bool) (h : M S A)
  : M S A :=
  fun s =>
    match c s with
    | (Ok a, s') => (Ok a, s')
    | (Raise e, s') => if handles e then h s' else (Raise e, s')
    end.

Definition lift {S A} (r : result A) : M S A := fun s => (r, s).

Definition gets {S A} (f : S -> A) : M S A := fun s => (Ok (f s), s).

Definition modify {S} (f : S -> S) : M S unit := fun s => (Ok tt, f s).

Notation "'let!' x ':=' c 'in' k" := (bind c (fun x => k))
  (at level 10, x name, c at level 100, k at level 200).
Notation "'do!' c 'in' k" := (bind c (fun _ => k))
  (at level 10, c at level 100, k at level 200).

(** ** The class [PyRedis] *)

Module PyRedis.

(** The attributes of an instance. *)
Record t : Type := mk {
  store : pyval;
  expirations : pyval;
  auto_save_enabled : bool;
  expiration_time : Z;
  verbose : bool
}.

(** An instance in its world. *)
Record Machine : Type := mkMachine {
  self : t;
  world : World
}.

Definition with_store (v : pyval) (o : t) : t :=
  mk v (expirations o) (auto_save_enabled o) (expiration_time o) (verbose o).

Definition with_expirations (v : pyval) (o : t) : t :=
  mk (store o) v (auto_save_enabled o) (expiration_time o) (verbose o).

Definition with_auto_save (b : bool) (o : t) : t :=
  mk (store o) (expirations o) b (expiration_time o) (verbose o).

Definition on_self (f : t -> t) (m : Machine) : Machine :=
  mkMachine (f (self m)) (world m).

Definition on_world (f : World -> World) (m : Machine) : Machine :=
  mkMachine (self m) (f (world m)).

(** *** Effects on the world *)

(** [print(...)], guarded by [if self.verbose:] *)
Definition print_if_verbose (l : line) : M Machine unit :=
  let! v := gets (fun m => verbose (self m)) in
  if v
  then modify (on_world (fun w =>
         mkWorld (files w) (writes w) (stdout w ++ [l]) (clock w) (ticks w)))
  else ret tt.

(** [time.time()] *)
Definition time_time : M Machine Z :=
  let! w := gets world in
  do! modify (on_world (fun w =>
        mkWorld (files w) (writes w) (stdout w) (clock w) (S (ticks w)))) in
  ret (clock w (ticks w)).

(** [with open(filename, "w") as f: json.dump(data, f)], for a name that
    can be opened for writing: the failure of [open] (a missing directory,
    an empty name, a full disk) is not modelled. *)
Definition json_dump_to (filename : string) (data : pyval) : M Machine unit :=
  modify (on_world (fun w =>
    mkWorld (<[filename := JSON data]> (files w)) (writes w ++ [filename])
            (stdout w) (clock w) (ticks w))).

(** [with open(filename, "r") as f: json.load(f)] *)
Definition json_load_from (filename : string) : M Machine pyval :=
  let! w := gets world in
  match files w !! filename with
  | None => raise (FileNotFoundError filename)
  | Some (NotJSON _) => raise JSONDecodeError
  | Some (JSON doc) => ret doc
  end.

(** *** Methods *)

(** [__init__] *)
Definition init (expiration_time : Z) (auto_save verbose : bool) : t :=
  mk (PDict ∅) (PDict ∅) auto_save expiration_time verbose.

Definition default_expiration_time : Z := 365 * 24 * 60 * 60.

Definition default_filename : string := "pyredis_dump.json".

(** [kv.split(", ") if ", " in kv else kv.split()] *)
Definition tokens (kv : string) : list string :=
  if PyStr.contains ", " kv then PyStr.split ", " kv else PyStr.split_ws kv.

(** The dictionary [data] that [save] builds. *)
Definition snapshot (o : t) : pyval :=
  PDict (<["store" := store o]> (<["expirations" := expirations o]> ∅)).

Definition save (filename : string) : M Machine unit :=
  let! o := gets self in
  let data := snapshot o in
  do! json_dump_to filename data in
  print_if_verbose (Line_saved filename).

(** The body of the [try] in the loop of [set]; it returns the value of
    the local variable [ttl] afterwards.  [now + ttl'] is the integer sum:
    the code adds floats, and raises [OverflowError] there, after the
    assignment to [store], for a TTL that no float holds. *)
Definition set_pair (kv : string) (ttl : option Z) : M Machine (option Z) :=
  let! kvp := lift (Py.unpack2 (tokens kv)) in
  let key := fst kvp in
  let value := snd kvp in
  let! o := gets self in
  let! st := lift (Py.setitem (store o) key (PStr value)) in
  do! modify (on_self (with_store st)) in
  let! o := gets self in
  let ttl' := match ttl with
              | None => expiration_time o
              | Some x => x
              end in
  let! now := time_time in
  let! o := gets self in
  let! ex := lift (Py.setitem (expirations o) key (PNum (now + ttl'))) in
  do! modify (on_self (with_expirations ex)) in
  do! print_if_verbose (Line_set key value) in
  ret (Some ttl').

Fixpoint set_loop (key_values : list string) (ttl : option Z)
  : M Machine unit :=
  match key_values with
  | [] => ret tt
  | kv :: rest =>
      let! ttl' :=
        try_except (set_pair kv ttl) Py.is_ValueError
          (do! print_if_verbose (Line_set_error kv) in ret ttl) in
      set_loop rest ttl'
  end.

Definition set (key_values : list string) (ttl : option Z) : M Machine unit :=
  do! set_loop key_values ttl in
  let! o := gets self in
  if auto_save_enabled o then save default_filename else ret tt.

Definition delete (key : string) : M Machine unit :=
  let! o := gets self in
  let! in_store := lift (Py.contains (store o) key) in
  do! (if in_store
       then
         let! st := lift (Py.delitem (store o) key) in
         do! modify (on_self (with_store st)) in
         let! o := gets self in
         let! in_exp := lift (Py.contains (expirations o) key) in
         do! (if in_exp
              then
                let! ex := lift (Py.delitem (expirations o) key) in
                modify (on_self (with_expirations ex))
              else ret tt) in
         print_if_verbose (Line_delete key)
       else print_if_verbose (Line_delete_none key)) in
  let! o := gets self in
  if auto_save_enabled o then save default_filename else ret tt.

Definition _is_expired (key : string) : M Machine bool :=
  let! o := gets self in
  let! in_exp := lift (Py.contains (expirations o) key) in
  if negb in_exp then ret false
  else
    let! now := time_time in
    let! o := gets self in
    let! e := lift (Py.getitem (expirations o) key) in
    lift (Py.gt now e).

Definition get (key : string) : M Machine pyval :=
  let! expired := _is_expired key in
  if expired
  then
    do! delete key in
    do! print_if_verbose (Line_get_none key) in
    ret PNone
  else
    let! o := gets self in
    let! value := lift (Py.get (store o) key) in
    do! print_if_verbose (Line_get key value) in
    ret value.

Definition load (filename : string) : M Machine unit :=
  try_except
    (let! data := json_load_from filename in
     let! st := lift (Py.getitem data "store") in
     do! modify (on_self (with_store st)) in
     let! ex := lift (Py.getitem data "expirations") in
     do! modify (on_self (with_expirations ex)) in
     print_if_verbose (Line_loaded filename))
    Py.is_FileNotFoundError
    (print_if_verbose (Line_no_data filename)).

Definition enable_auto_save : M Machine unit :=
  do! modify (on_self (with_auto_save true)) in
  print_if_verbose (Line_auto_save true).

Definition disable_auto_save : M Machine unit :=
  do! modify (on_self (with_auto_save false)) in
  print_if_verbose (Line_auto_save false).

End PyRedis.

(** ** Vocabulary of the statements *)

Import PyRedis.

(** The machine after a computation, and its outcome. *)
Definition after {A} (c : M Machine A) (m : Machine) : Machine := snd (c m).
Definition outcome {A} (c : M Machine A) (m : Machine) : result A := fst (c m).

(** The machine after [if self.auto_save_enabled: self.save()]. *)
Definition autosaved (m : Machine) : Machine :=
  if auto_save_enabled (self m) then after (save default_filename) m else m.

(** The value a dictionary holds for [k]. *)
Definition entry (container : pyval) (k : string) : option pyval :=
  match container with
  | PDict d => d !! k
  | _ => None
  end.

(** [m'] has the files of [m], has opened no file for writing since [m], and
    has the same [auto_save_enabled]. *)
Definition same_files (m m' : Machine) : Prop :=
  files (world m') = files (world m) /\
  writes (world m') = writes (world m) /\
  auto_save_enabled (self m') = auto_save_enabled (self m).

(** The content of the file that [save()] writes by default. *)
Definition on_disk (m : Machine) : option file_data :=
  files (world m) !! default_filename.

(** The pair a string decodes to in [set], if it does. *)
Definition parse_pair (kv : string) : option (string * string) :=
  match Py.unpack2 (tokens kv) with
  | Ok p => Some p
  | Raise _ => None
  end.

(** The pairs of a batch that decode, in order. *)
Definition accepted (key_values : list string) : list (string * string) :=
  omap parse_pair key_values.

(** A dictionary after the assignments [d[k] = v] for the pairs of [ps]. *)
Fixpoint stored (ps : list (string * string)) (d : gmap string pyval)
  : gmap string pyval :=
  match ps with
  | [] => d
  | (k, v) :: ps' => stored ps' (<[k := PStr v]> d)
  end.

(** A dictionary after the assignments [e[k] = time.time() + ttl] for the
    pairs of [ps], the first of them reading [clk n]. *)
Fixpoint stamped (clk : nat -> Z) (n : nat) (ttl : Z)
  (ps : list (string * string)) (e : gmap string pyval) : gmap string pyval :=
  match ps with
  | [] => e
  | (k, _) :: ps' => stamped clk (S n) ttl ps' (<[k := PNum (clk n + ttl)]> e)
  end.

(** The TTL a call [set(..., ttl=ttl)] applies. *)
Definition effective_ttl (o : t) (ttl : option Z) : Z :=
  match ttl with
  | None => expiration_time o
  | Some x => x
  end.

(** [float(z)] does not raise [OverflowError]: [z] is far inside the range of
    the floats, whose largest is just below [2^1024]. *)
Definition converts_to_float (z : Z) : Prop := Z.abs z <= 2 ^ 1023.

(** The TTL and the [len] clock readings from the [n]-th on are integers of
    at most 52 bits: each float sum [time.time() + ttl] is then below [2^53]
    in absolute value and is the exact sum. *)
Definition sums_exact (clk : nat -> Z) (n len : nat) (ttl : Z) : Prop :=
  Z.abs ttl <= 2 ^ 52 /\
  forall j : nat, (n <= j < n + len)%nat -> Z.abs (clk j) <= 2 ^ 52.

(** The value of the last pair of [ps] whose key is [k]. *)
Fixpoint last_value (ps : list (string * string)) (k : string) : option string :=
  match ps with
  | [] => None
  | (k', v) :: ps' =>
      match last_value ps' k with
      | Some v' => Some v'
      | None => if String.eqb k' k then Some v else None
      end
  end.

(** The reading [time.time()] returns next. *)
Definition now (m : Machine) : Z := clock (world m) (ticks (world m)).

(** No character of [s] is one on which [str.split()] cuts. *)
Fixpoint no_space (s : string) : bool :=
  match s with
  | EmptyString => true
  | String c s' => negb (PyStr.isspace c) && no_space s'
  end.

(** The last character of [s] is a comma. *)
Fixpoint ends_with_comma (s : string) : bool :=
  match s with
  | EmptyString => false
  | String c EmptyString => Ascii.eqb c ","
  | String _ s' => ends_with_comma s'
  end.

(** ** Concrete worlds and machines *)

(** A world without files whose clock starts at 1000 and advances by one
    second with each reading. *)
Definition world0 : World :=
  mkWorld ∅ [] [] (fun n => 1000 + Z.of_nat n) 0.

(** An instance that holds an expiration for ["k"] and no value for it. *)
Definition orphan : Machine :=
  mkMachine
    (mk (PDict ∅) (PDict {["k" := PNum 5]}) false default_expiration_time false)
    world0.

(** The file of the example: [{"store": {"x": "1"}, "expirations": {}}],
    and a fresh instance next to it. *)
Definition hand_edited : Machine :=
  mkMachine (init default_expiration_time true true)
    (mkWorld {["f.json" := JSON (PDict (<["store" := PDict {["x" := PStr "1"]}]>
                                         (<["expirations" := PDict ∅]> ∅)))]}
             [] [] (fun n => 1000 + Z.of_nat n) 0).

(** The same instance with [auto_save_enabled] set. *)
Definition orphan_autosave : Machine :=
  on_self (with_auto_save true) orphan.

(** An instance that holds a live key ["a"], next to a file ["f.json"] whose
    document [{"store": {"x": "1"}}] has no field ["expirations"]. *)
Definition half_snapshot : Machine :=
  mkMachine
    (mk (PDict {["a" := PStr "1"]}) (PDict {["a" := PNum 99999]})
        false default_expiration_time false)
    (mkWorld {["f.json" := JSON (PDict {["store" := PDict {["x" := PStr "1"]}]})]}
             [] [] (fun n => 1000 + Z.of_nat n) 0).

(** ** Vocabulary of the further properties *)

(** From [m] to [m'] no file was written, the configuration of the instance
    and the clock are the same, and the clock was only read. *)
Definition quiet (m m' : Machine) : Prop :=
  files (world m') = files (world m) /\
  writes (world m') = writes (world m) /\
  auto_save_enabled (self m') = auto_save_enabled (self m) /\
  expiration_time (self m') = expiration_time (self m) /\
  verbose (self m') = verbose (self m) /\
  clock (world m') = clock (world m) /\
  (ticks (world m) <= ticks (world m'))%nat.

(** The same, except that the file [filename] may have been written. *)
Definition steady (filename : string) (m m' : Machine) : Prop :=
  (forall p, p <> filename ->
     files (world m') !! p = files (world m) !! p) /\
  (exists l, writes (world m') = writes (world m) ++ l /\
             Forall (fun p => p = filename) l) /\
  auto_save_enabled (self m') = auto_save_enabled (self m) /\
  expiration_time (self m') = expiration_time (self m) /\
  verbose (self m') = verbose (self m) /\
  clock (world m') = clock (world m) /\
  (ticks (world m) <= ticks (world m'))%nat.

(** An instance as [__init__], [set], [get] and [delete] make it: two
    dictionaries with the same keys, strings in [store] and numbers in
    [expirations]. *)
Definition well_formed (o : t) : Prop :=
  exists d e : gmap string pyval,
    store o = PDict d /\ expirations o = PDict e /\
    (forall k, is_Some (d !! k) <-> is_Some (e !! k)) /\
    (forall k v, d !! k = Some v -> exists s, v = PStr s) /\
    (forall k v, e !! k = Some v -> exists z, v = PNum z).

(** The calls a user of the class makes, [load] apart; [Op_save] is
    [save()], to the file that the auto-save writes. *)
Inductive op : Type :=
  | Op_set (key_values : list string) (ttl : option Z)
  | Op_get (key : string)
  | Op_delete (key : string)
  | Op_save
  | Op_enable_auto_save
  | Op_disable_auto_save.

Definition run_op (o : op) : M Machine unit :=
  match o with
  | Op_set key_values ttl => set key_values ttl
  | Op_get key => do! get key in ret tt
  | Op_delete key => delete key
  | Op_save => save default_filename
  | Op_enable_auto_save => enable_auto_save
  | Op_disable_auto_save => disable_auto_save
  end.

(** The TTL that a call of [set] names converts to a float. *)
Definition op_in_range (o : op) : Prop :=
  match o with
  | Op_set _ (Some ttl) => converts_to_float ttl
  | _ => True
  end.

Fixpoint run_ops (ops : list op) : M Machine unit :=
  match ops with
  | [] => ret tt
  | o :: rest => do! run_op o in run_ops rest
  end.

(** [sep.join(l)] *)
Fixpoint join (sep : string) (l : list string) : string :=
  match l with
  | [] => ""
  | [a] => a
  | a :: l' => a +:+ sep +:+ join sep l'
  end.

(** [s] begins with a space. *)
Definition starts_with_space (s : string) : bool :=
  match s with
  | EmptyString => false
  | String c _ => Ascii.eqb " " c
  end.

(** [s[1:]] *)
Definition behead (s : string) : string :=
  match s with
  | EmptyString => ""
  | String _ s' => s'
  end.

(** No [", "] lies in [cur], nor begins at its last character when [s]
    follows. *)
Definition no_sep_so_far (cur s : string) : Prop :=
  PyStr.contains ", " cur = false /\
  ends_with_comma cur && starts_with_space s = false.


(** ** The command line: further operations of [str] *)

Module PyText.

(** [s.lstrip()] *)
Fixpoint lstrip (s : string) : string :=
  match s with
  | EmptyString => ""
  | String c s' => if PyStr.isspace c then lstrip s' else s
  end.

(** [s.rstrip()] *)
Fixpoint rstrip (s : string) : string :=
  match s with
  | EmptyString => ""
  | String c s' =>
      match rstrip s' with
      | EmptyString => if PyStr.isspace c then "" else String c ""
      | r => String c r
      end
  end.

(** [s.strip()] *)
Definition strip (s : string) : string := rstrip (lstrip s).

(** [s.split(' ', 1)]: cut at the first space, if there is one. *)
Fixpoint split_space_once_from (cur s : string) : list string :=
  match s with
  | EmptyString => [cur]
  | String c s' =>
      if Ascii.eqb c " " then [cur; s']
      else split_space_once_from (cur +:+ String c "") s'
  end.

Definition split_space_once (s : string) : list string :=
  split_space_once_from "" s.

(** The code points of a string. *)
Definition codes (s : string) : list N :=
  map N_of_ascii (list_ascii_of_string s).

(** The code points of [c.upper()] for a character below 256: the letters
    [a]-[z] and the lower-case letters of Latin-1; the micro sign and [y]
    with diaeresis leave Latin-1, and the sharp s becomes [SS]. *)
Definition upper_char (c : ascii) : list N :=
  let n := N_of_ascii c in
  if ((97 <=? n) && (n <=? 122))%N then [(n - 32)%N]
  else if (n =? 181)%N then [924%N]
  else if (n =? 223)%N then [83%N; 83%N]
  else if ((224 <=? n) && (n <=? 254) && negb (n =? 247))%N then [(n - 32)%N]
  else if (n =? 255)%N then [376%N]
  else [n].

(** The code points of [s.upper()]. *)
Definition upper (s : string) : list N :=
  flat_map upper_char (list_ascii_of_string s).

End PyText.

(** ** The class [PyRedisCLI] *)

Module PyRedisCLI.

(** The lines the command line prints itself. *)
Inductive message : Type :=
  | Msg_no_save_file (path : string)
  | Msg_welcome
  | Msg_prompt
  | Msg_set_usage
  | Msg_get_usage
  | Msg_delete_usage
  | Msg_exiting
  | Msg_unknown_command
  | Msg_error (e : exn).

(** The attributes of an instance. *)
Record t : Type := mk {
  redis : PyRedis.t;
  savefile_path : string
}.

(** An instance in its world.  [console] holds the lines the command line
    printed, each with the number of lines the store had printed before. *)
Record Session : Type := mkSession {
  self : t;
  world : World;
  console : list (nat * message)
}.

(** A method of [self.redis] called from the command line. *)
Definition on_redis {A} (c : M PyRedis.Machine A) : M Session A :=
  fun s =>
    let r := c (PyRedis.mkMachine (redis (self s)) (world s)) in
    (fst r,
     mkSession (mk (PyRedis.self (snd r)) (savefile_path (self s)))
               (PyRedis.world (snd r)) (console s)).

(** [print(...)] *)
Definition say (msg : message) : M Session unit :=
  modify (fun s =>
    mkSession (self s) (world s)
              (console s ++ [(length (stdout (world s)), msg)])).

(** [try: c  except Exception as e: h e] *)
Definition try_except_as {S A} (c : M S A) (h : exn -> M S A) : M S A :=
  fun s =>
    match c s with
    | (Ok a, s') => (Ok a, s')
    | (Raise e, s') => h e s'
    end.

(** The object before the body of [__init__] has run on it. *)
Definition blank (savefile_path : string) (expiration_time : Z)
  (verbose : bool) (w : World) : Session :=
  mkSession (mk (PyRedis.init expiration_time true verbose) savefile_path) w [].

(** [__init__]; [os.path.exists] holds of the paths that name a file. *)
Definition init (savefile_path : string) (expiration_time : Z)
  (verbose : bool) (w : World) : result unit * Session :=
  (let! s := gets (fun s => s) in
   match files (world s) !! PyRedisCLI.savefile_path (self s) with
   | Some _ => on_redis (PyRedis.load (PyRedisCLI.savefile_path (self s)))
   | None => if verbose then say (Msg_no_save_file savefile_path) else ret tt
   end) (blank savefile_path expiration_time verbose w).

Section Run.

(** The builtin [int] on strings. *)
Variable int : string -> result Z.

(** [cmd == name] for [cmd = parts[0].upper()] *)
Definition is_command (cmd : list N) (name : string) : bool :=
  bool_decide (cmd = PyText.codes name).

(** The branch of [run] for [SET]. *)
Definition run_set (cmd_vals : string) : M Session unit :=
  let cmd_vals := PyText.strip cmd_vals in
  if (1 <=? length (PyStr.split "," cmd_vals))%nat
  then
    let key_value_pairs := map PyText.strip (PyStr.split "," cmd_vals) in
    if (length key_value_pairs mod 2 =? 1)%nat
    then
      let! ttl := lift (int (List.last key_value_pairs "")) in
      on_redis (PyRedis.set (removelast key_value_pairs) (Some ttl))
    else on_redis (PyRedis.set key_value_pairs None)
  else say Msg_set_usage.

(** The commands of [run] after [SET]. *)
Definition run_other (cmd : list N) (cmd_vals : string) : M Session bool :=
  if is_command cmd "GET"
  then
    do! (match cmd_vals with
         | EmptyString => say Msg_get_usage
         | _ => do! on_redis (PyRedis.get cmd_vals) in ret tt
         end) in
    ret false
  else if is_command cmd "DELETE"
  then
    do! (match cmd_vals with
         | EmptyString => say Msg_delete_usage
         | _ => on_redis (PyRedis.delete cmd_vals)
         end) in
    ret false
  else if is_command cmd "SAVE"
  then
    let! s := gets (fun s => s) in
    do! on_redis (PyRedis.save (savefile_path (self s))) in
    ret false
  else if is_command cmd "LOAD"
  then
    let! s := gets (fun s => s) in
    do! on_redis (PyRedis.load (savefile_path (self s))) in
    ret false
  else if is_command cmd "ENABLE_AUTOSAVE"
  then do! on_redis PyRedis.enable_auto_save in ret false
  else if is_command cmd "DISABLE_AUTOSAVE"
  then do! on_redis PyRedis.disable_auto_save in ret false
  else if is_command cmd "EXIT"
  then do! say Msg_exiting in ret true
  else do! say Msg_unknown_command in ret false.

(** One turn of the loop of [run] on the line that [input] returns; the
    result tells whether the loop ends ([break]). *)
Definition turn (line : string) : M Session bool :=
  try_except_as
    (do! say Msg_prompt in
     let input_str := PyText.strip line in
     match input_str with
     | EmptyString => ret false
     | _ =>
         let parts := PyText.split_space_once input_str in
         let cmd := PyText.upper (hd "" parts) in
         let cmd_vals := if (1 <? length parts)%nat then nth 1 parts "" else "" in
         if is_command cmd "SET"
         then do! run_set cmd_vals in ret false
         else run_other cmd cmd_vals
     end)
    (fun e => do! say (Msg_error e) in ret false).

(** The loop of [run] on the lines that the calls of [input] return, as far
    as these go; the result tells whether the loop has ended.  (Once [input]
    has no line left it raises [EOFError], which the loop catches and
    reports without end; [run_lines] stops there.) *)
Fixpoint run_lines (lines : list string) : M Session bool :=
  match lines with
  | [] => ret false
  | line :: rest =>
      let! stop := turn line in
      if stop then ret true else run_lines rest
  end.

Definition run (lines : list string) : M Session bool :=
  do! say Msg_welcome in
  run_lines lines.

End Run.

(** A reading of plain decimal literals with an optional sign, used as [int]
    in the examples.  On these [int] returns the same value (up to its limit
    on the number of digits); [int] also accepts surrounding whitespace and
    single underscores between digits, which this reading rejects. *)
Fixpoint digits_value (acc : Z) (s : string) : result Z :=
  match s with
  | EmptyString => Ok acc
  | String c s' =>
      let n := Z.of_N (N_of_ascii c) in
      if (48 <=? n) && (n <=? 57)
      then digits_value (10 * acc + (n - 48)) s'
      else Raise ValueError
  end.

Definition int_decimal (s : string) : result Z :=
  match s with
  | EmptyString => Raise ValueError
  | String "-" (String c s') =>
      match digits_value 0 (String c s') with
      | Ok z => Ok (- z)
      | Raise e => Raise e
      end
  | String "+" (String c s') => digits_value 0 (String c s')
  | String "-" EmptyString | String "+" EmptyString => Raise ValueError
  | _ => digits_value 0 s
  end.

End PyRedisCLI.

(** ** Vocabulary of the properties of the command line *)

(** Every character of [s] passes the test [p]. *)
Fixpoint all_chars (p : ascii -> bool) (s : string) : bool :=
  match s with
  | EmptyString => true
  | String c s' => p c && all_chars p s'
  end.

(** [s] holds no comma. *)
Definition no_comma (s : string) : bool :=
  all_chars (fun c => negb (Ascii.eqb c ",")) s.

(** The store of a session, in the world of the session. *)
Definition machine_of (s : PyRedisCLI.Session) : Machine :=
  mkMachine (PyRedisCLI.redis (PyRedisCLI.self s)) (PyRedisCLI.world s).

(** The handler of [except Exception as e] in [run]. *)
Definition report (e : exn) : M PyRedisCLI.Session bool :=
  do! PyRedisCLI.say (PyRedisCLI.Msg_error e) in ret false.

(** The store of a session. *)
Definition redis_of (s : PyRedisCLI.Session) : t :=
  PyRedisCLI.redis (PyRedisCLI.self s).

(** The command word of a line, as [run] compares it. *)
Definition command_word (line : string) : list N :=
  PyText.upper (hd "" (PyText.split_space_once (PyText.strip line))).

(** The arguments of a line, as [run] passes them on. *)
Definition command_args (line : string) : string :=
  nth 1 (PyText.split_space_once (PyText.strip line)) "".

(** A world without files and a session started in it. *)
Definition session0 : PyRedisCLI.Session :=
  snd (PyRedisCLI.init "my.json" 100 false world0).

(** * Properties *)

(** ** Printing and saving leave the instance alone *)

Lemma print_if_verbose_self (l : line) (m : Machine) :
  self (after (print_if_verbose l) m) = self m.
Proof.
  unfold after, print_if_verbose, bind, gets. simpl.
  destruct (verbose (self m)); reflexivity.
Qed.

Lemma print_if_verbose_world (l : line) (m : Machine) :
  let w := world m in
  let w' := world (after (print_if_verbose l) m) in
  files w' = files w /\ writes w' = writes w /\
  clock w' = clock w /\ ticks w' = ticks w.
Proof.
  unfold after, print_if_verbose, bind, gets. simpl.
  destruct (verbose (self m)); simpl; auto.
Qed.

Lemma print_if_verbose_eq (l : line) (m : Machine) :
  print_if_verbose l m = (Ok tt, after (print_if_verbose l) m).
Proof.
  unfold after, print_if_verbose, bind, gets. simpl.
  destruct (verbose (self m)); reflexivity.
Qed.

Lemma save_eq (filename : string) (m : Machine) :
  save filename m = (Ok tt, after (save filename) m).
Proof.
  unfold after, save, bind, gets, json_dump_to, modify. simpl.
  rewrite print_if_verbose_eq. reflexivity.
Qed.

Lemma save_self (filename : string) (m : Machine) :
  self (after (save filename) m) = self m.
Proof.
  unfold after, save, bind, gets, json_dump_to, modify. simpl.
  rewrite print_if_verbose_eq. simpl.
  rewrite print_if_verbose_self. reflexivity.
Qed.

Lemma save_world (filename : string) (m : Machine) :
  let w := world m in
  let w' := world (after (save filename) m) in
  files w' = <[filename := JSON (snapshot (self m))]> (files w) /\
  writes w' = writes w ++ [filename] /\
  clock w' = clock w /\ ticks w' = ticks w.
Proof.
  unfold after, save, bind, gets, json_dump_to, modify. simpl.
  rewrite print_if_verbose_eq. simpl.
  match goal with
  | |- context [after (print_if_verbose ?l) ?m'] =>
      destruct (print_if_verbose_world l m') as (Hf & Hw & Hc & Ht)
  end.
  simpl in *. rewrite Hf, Hw, Hc, Ht. auto.
Qed.

(** ** [delete] *)

Lemma autosaved_self (m : Machine) : self (autosaved m) = self m.
Proof.
  unfold autosaved. destruct (auto_save_enabled (self m)); [|reflexivity].
  apply save_self.
Qed.

Lemma autosave_eq (m : Machine) :
  (if auto_save_enabled (self m) then save default_filename else ret tt) m
  = (Ok tt, autosaved m).
Proof.
  unfold autosaved. destruct (auto_save_enabled (self m)); [|reflexivity].
  apply save_eq.
Qed.

(** [delete] of a key that the dictionary [store] does not hold. *)
Lemma delete_absent (m : Machine) (k : string) (d : gmap string pyval) :
  store (self m) = PDict d -> d !! k = None ->
  delete k m
  = (Ok tt, autosaved (after (print_if_verbose (Line_delete_none k)) m)).
Proof.
  intros Hd Hk. unfold delete, bind, gets, lift. simpl.
  rewrite Hd. simpl. rewrite Hk.
  rewrite print_if_verbose_eq. simpl.
  apply autosave_eq.
Qed.

(** [delete] of a key that the dictionary [store] holds. *)
Lemma delete_present (m : Machine) (k : string) (d e : gmap string pyval)
  (v : pyval) :
  store (self m) = PDict d -> expirations (self m) = PDict e ->
  d !! k = Some v ->
  delete k m
  = (Ok tt,
     autosaved
       (after (print_if_verbose (Line_delete k))
          (on_self (fun o => with_expirations (PDict (base.delete k e))
                               (with_store (PDict (base.delete k d)) o)) m))).
Proof.
  intros Hd He Hk. unfold delete, bind, gets, lift, modify. simpl.
  rewrite Hd. simpl. rewrite Hk. simpl. rewrite He. simpl.
  destruct (e !! k) as [x|] eqn:Hek; simpl.
  - rewrite print_if_verbose_eq. simpl.
    apply autosave_eq.
  - rewrite (delete_id e k Hek).
    rewrite print_if_verbose_eq. simpl.
    replace (on_self (fun o => with_expirations (PDict e)
                                 (with_store (PDict (base.delete k d)) o)) m)
      with (on_self (with_store (PDict (base.delete k d))) m)
      by (unfold on_self, with_expirations, with_store; simpl;
          rewrite He; reflexivity).
    apply autosave_eq.
Qed.

(** ** [_is_expired] and [get] *)

Lemma is_expired_no_entry (m : Machine) (k : string) (e : gmap string pyval) :
  expirations (self m) = PDict e -> e !! k = None ->
  _is_expired k m = (Ok false, m).
Proof.
  intros He Hk. unfold _is_expired, bind, gets, lift. simpl.
  rewrite He. simpl. rewrite Hk. reflexivity.
Qed.

Lemma is_expired_entry (m : Machine) (k : string) (e : gmap string pyval)
  (x : Z) :
  expirations (self m) = PDict e -> e !! k = Some (PNum x) ->
  _is_expired k m = (Ok (x <? now m), after time_time m).
Proof.
  intros He Hk. unfold _is_expired, after, time_time, bind, gets, lift, modify.
  simpl. rewrite He. simpl. rewrite Hk. simpl. rewrite He. simpl.
  rewrite Hk. reflexivity.
Qed.

(** [get] of a key whose entry has not expired, or that has no entry. *)
Lemma get_live (m m' : Machine) (k : string) (d : gmap string pyval) :
  _is_expired k m = (Ok false, m') ->
  store (self m') = PDict d ->
  get k m
  = (Ok (default PNone (d !! k)),
     after (print_if_verbose (Line_get k (default PNone (d !! k)))) m').
Proof.
  intros Hx Hd. unfold get, bind. rewrite Hx. unfold gets, lift. simpl.
  rewrite Hd. simpl.
  destruct (d !! k) as [v|]; simpl; rewrite print_if_verbose_eq; reflexivity.
Qed.

(** [get] of a key whose entry has expired. *)
Lemma get_expired (m m' m'' : Machine) (k : string) :
  _is_expired k m = (Ok true, m') ->
  delete k m' = (Ok tt, m'') ->
  get k m = (Ok PNone, after (print_if_verbose (Line_get_none k)) m'').
Proof.
  intros Hx Hdel. unfold get, bind. rewrite Hx, Hdel.
  rewrite print_if_verbose_eq. reflexivity.
Qed.

(** ** C2: what [delete] removes *)

(** C2, as stated, fails: on an instance whose [expirations] holds ["k"] and
    whose [store] does not, [delete("k")] returns and ["k"] is still in
    [expirations]. *)
Lemma delete_keeps_orphan_expiration :
  entry (store (self orphan)) "k" = None /\
  outcome (delete "k") orphan = Ok tt /\
  entry (expirations (self (after (delete "k") orphan))) "k" = Some (PNum 5).
Proof. vm_compute. auto. Qed.

(** C2, amended: on an instance whose [store] and [expirations] are
    dictionaries, [delete(k)] returns and afterwards [k] is absent from
    [store]; [k] is absent from [expirations] too when [store] held [k]
    before the call, or when [expirations] did not hold it; and when
    [store] did not hold [k], both dictionaries are what they were. *)
Theorem delete_removes_stored_key (m : Machine) (k : string)
  (d e : gmap string pyval) :
  store (self m) = PDict d -> expirations (self m) = PDict e ->
  let m' := after (delete k) m in
  outcome (delete k) m = Ok tt /\
  entry (store (self m')) k = None /\
  (is_Some (d !! k) \/ e !! k = None -> entry (expirations (self m')) k = None) /\
  (d !! k = None -> store (self m') = PDict d /\ expirations (self m') = PDict e).
Proof.
  intros Hd He m'. subst m'. unfold outcome, after.
  destruct (d !! k) as [v|] eqn:Hk.
  - rewrite (delete_present m k d e v Hd He Hk). simpl.
    rewrite autosaved_self, print_if_verbose_self. simpl.
    repeat split.
    + apply lookup_delete_eq.
    + intros _. apply lookup_delete_eq.
    + discriminate.
    + discriminate.
  - rewrite (delete_absent m k d Hd Hk). simpl.
    rewrite autosaved_self, print_if_verbose_self. rewrite Hd, He. simpl.
    repeat split; auto.
    intros [[v Hv]|Hn]; [discriminate|exact Hn].
Qed.

Lemma delete_removes_stored_key_witness :
  let m := after (set ["a b"] None) (mkMachine (init 10 true true) world0) in
  let m' := after (delete "a") m in
  store (self m) = PDict {["a" := PStr "b"]} /\
  expirations (self m) = PDict {["a" := PNum 1010]} /\
  outcome (delete "a") m = Ok tt /\
  entry (store (self m')) "a" = None /\
  entry (expirations (self m')) "a" = None.
Proof.
  pose (m := after (set ["a b"] None) (mkMachine (init 10 true true) world0)).
  assert (Hd : store (self m) = PDict {["a" := PStr "b"]})
    by (vm_compute; reflexivity).
  assert (Hx : expirations (self m) = PDict {["a" := PNum 1010]})
    by (vm_compute; reflexivity).
  pose proof (delete_removes_stored_key m "a" _ _ Hd Hx) as (Ho & Hs & He & _).
  split; [exact Hd|]. split; [exact Hx|]. split; [exact Ho|].
  split; [exact Hs|].
  apply He. left. rewrite lookup_singleton_eq. eauto.
Defined.

(** ** C6: a key without an expiration never expires *)

Lemma get_no_entry (m : Machine) (k : string) (d e : gmap string pyval)
  (v : pyval) :
  store (self m) = PDict d -> expirations (self m) = PDict e ->
  d !! k = Some v -> e !! k = None ->
  get k m = (Ok v, after (print_if_verbose (Line_get k v)) m).
Proof.
  intros Hd He Hk Hek.
  rewrite (get_live m m k d (is_expired_no_entry m k e He Hek) Hd).
  rewrite Hk. reflexivity.
Qed.

Lemma get_no_entry_iter (n : nat) (m : Machine) (k : string)
  (d e : gmap string pyval) (v : pyval) :
  store (self m) = PDict d -> expirations (self m) = PDict e ->
  d !! k = Some v -> e !! k = None ->
  self (Nat.iter n (after (get k)) m) = self m.
Proof.
  intros Hd He Hk Hek. induction n as [|n IH]; [reflexivity|].
  simpl. unfold after at 1.
  rewrite (get_no_entry _ k d e v); try (rewrite IH; assumption); try assumption.
  simpl. rewrite print_if_verbose_self. exact IH.
Qed.

(** C6: when [store] holds a value for [k] and [expirations] holds nothing
    for [k], [get(k)] returns that value, whatever the clock says (the world
    of [m] is arbitrary), and leaves the instance as it was; it does not read
    the clock and writes no file.  So [k] is never deleted: after any number
    of calls of [get(k)], one more returns the value again. *)
Theorem get_without_expiration (m : Machine) (k : string)
  (d e : gmap string pyval) (v : pyval) :
  store (self m) = PDict d -> expirations (self m) = PDict e ->
  d !! k = Some v -> e !! k = None ->
  let m' := after (get k) m in
  outcome (get k) m = Ok v /\
  self m' = self m /\
  files (world m') = files (world m) /\
  writes (world m') = writes (world m) /\
  ticks (world m') = ticks (world m) /\
  forall n : nat, outcome (get k) (Nat.iter n (after (get k)) m) = Ok v.
Proof.
  intros Hd He Hk Hek m'. subst m'. unfold outcome, after.
  rewrite (get_no_entry m k d e v Hd He Hk Hek). simpl.
  rewrite print_if_verbose_self.
  destruct (print_if_verbose_world (Line_get k v) m) as (Hf & Hw & _ & Ht).
  repeat split; auto.
  intros n.
  pose proof (get_no_entry_iter n m k d e v Hd He Hk Hek) as Hs.
  unfold after in Hs.
  rewrite (get_no_entry _ k d e v); try (rewrite Hs; assumption); auto.
Qed.

Lemma get_without_expiration_witness :
  let m := after (load "f.json") hand_edited in
  store (self m) = PDict {["x" := PStr "1"]} /\
  expirations (self m) = PDict ∅ /\
  outcome (get "x") m = Ok (PStr "1") /\
  self (after (get "x") m) = self m /\
  outcome (get "x") (Nat.iter 3 (after (get "x")) m) = Ok (PStr "1").
Proof.
  pose (m := after (load "f.json") hand_edited).
  assert (Hd : store (self m) = PDict {["x" := PStr "1"]})
    by (vm_compute; reflexivity).
  assert (He : expirations (self m) = PDict ∅) by (vm_compute; reflexivity).
  pose proof (get_without_expiration m "x" _ _ (PStr "1") Hd He
                ltac:(reflexivity) ltac:(reflexivity))
    as (Ho & Hs & _ & _ & _ & Hn).
  split; [exact Hd|]. split; [exact He|]. split; [exact Ho|].
  split; [exact Hs|exact (Hn 3%nat)].
Defined.

(** ** C10: a read that writes the snapshot *)

(** C10: with [auto_save_enabled] set, [get(k)] of a key whose expiration is
    in the past returns [None] and writes the snapshot file once, whether or
    not [store] held [k]; when it did not, the instance is what it was. *)
Theorem get_expired_writes_snapshot (m : Machine) (k : string)
  (d e : gmap string pyval) (x : Z) :
  auto_save_enabled (self m) = true ->
  store (self m) = PDict d -> expirations (self m) = PDict e ->
  e !! k = Some (PNum x) -> x < now m ->
  let m' := after (get k) m in
  outcome (get k) m = Ok PNone /\
  writes (world m') = writes (world m) ++ [default_filename] /\
  files (world m')
  = <[default_filename := JSON (snapshot (self m'))]> (files (world m)) /\
  (d !! k = None -> self m' = self m).
Proof.
  intros Hauto Hd He Hk Hlt m'. subst m'. unfold outcome, after.
  pose proof (is_expired_entry m k e x He Hk) as Hx.
  assert (Hb : (x <? now m) = true) by (apply Z.ltb_lt; exact Hlt).
  rewrite Hb in Hx.
  set (m1 := after time_time m) in *.
  assert (Hd1 : store (self m1) = PDict d) by exact Hd.
  assert (He1 : expirations (self m1) = PDict e) by exact He.
  assert (Hdel : exists m2, delete k m1 = (Ok tt, autosaved m2) /\
             files (world m2) = files (world m) /\
             writes (world m2) = writes (world m) /\
             auto_save_enabled (self m2) = true /\
             (d !! k = None -> self m2 = self m)).
  { destruct (d !! k) as [v|] eqn:Hdk.
    - eexists. split; [apply (delete_present m1 k d e v Hd1 He1 Hdk)|].
      rewrite print_if_verbose_self.
      match goal with
      | |- context [after (print_if_verbose ?l) ?mm] =>
          destruct (print_if_verbose_world l mm) as (Hf & Hw & _ & _)
      end.
      simpl in *. rewrite Hf, Hw. repeat split; auto. discriminate.
    - eexists. split; [apply (delete_absent m1 k d Hd1 Hdk)|].
      rewrite print_if_verbose_self.
      destruct (print_if_verbose_world (Line_delete_none k) m1)
        as (Hf & Hw & _ & _).
      simpl in *. rewrite Hf, Hw. repeat split; auto. }
  destruct Hdel as (m2 & Hdel & Hf2 & Hw2 & Ha2 & Hs2).
  rewrite (get_expired m m1 (autosaved m2) k Hx Hdel). simpl.
  rewrite print_if_verbose_self.
  match goal with
  | |- context [after (print_if_verbose ?l) ?mm] =>
      destruct (print_if_verbose_world l mm) as (Hf & Hw & _ & _)
  end.
  simpl in *. rewrite Hf, Hw.
  rewrite autosaved_self.
  unfold autosaved. rewrite Ha2.
  destruct (save_world default_filename m2) as (Hf3 & Hw3 & _ & _).
  simpl in *. rewrite Hf3, Hw3, Hf2, Hw2. auto.
Qed.

Lemma get_expired_writes_snapshot_witness :
  let m := orphan_autosave in
  let m' := after (get "k") m in
  auto_save_enabled (self m) = true /\
  store (self m) = PDict ∅ /\
  expirations (self m) = PDict {["k" := PNum 5]} /\
  5 < now m /\
  outcome (get "k") m = Ok PNone /\
  writes (world m') = [default_filename] /\
  self m' = self m.
Proof.
  pose (m := orphan_autosave).
  assert (Hd : store (self m) = PDict ∅) by reflexivity.
  assert (He : expirations (self m) = PDict {["k" := PNum 5]}) by reflexivity.
  assert (Hlt : 5 < now m) by (vm_compute; reflexivity).
  pose proof (get_expired_writes_snapshot m "k" _ _ 5 eq_refl Hd He
                ltac:(reflexivity) Hlt) as (Ho & Hw & _ & Hs).
  split; [reflexivity|]. split; [exact Hd|]. split; [exact He|].
  split; [exact Hlt|]. split; [exact Ho|]. split; [exact Hw|].
  apply Hs. reflexivity.
Defined.

(** ** [load] *)

Lemma getitem_not_FileNotFoundError (c : pyval) (k : string) (e : exn) :
  Py.getitem c k = Raise e -> Py.is_FileNotFoundError e = false.
Proof.
  destruct c as [| | | | |d]; simpl; try (intros [= <-]; reflexivity).
  destruct (d !! k); [discriminate|]. intros [= <-]. reflexivity.
Qed.

Lemma load_no_file (m : Machine) (f : string) :
  files (world m) !! f = None ->
  load f m = (Ok tt, after (print_if_verbose (Line_no_data f)) m).
Proof.
  intros Hf. unfold load, try_except, json_load_from, bind, gets. simpl.
  rewrite Hf. simpl. apply print_if_verbose_eq.
Qed.

(** The file is not JSON: [json.load] raises and nothing was assigned. *)
Lemma load_not_json (m : Machine) (f txt : string) :
  files (world m) !! f = Some (NotJSON txt) ->
  load f m = (Raise JSONDecodeError, m).
Proof.
  intros Hf. unfold load, try_except, json_load_from, bind, gets. simpl.
  rewrite Hf. reflexivity.
Qed.

(** [data["store"]] raises: nothing was assigned. *)
Lemma load_no_store (m : Machine) (f : string) (doc : pyval) (e : exn) :
  files (world m) !! f = Some (JSON doc) ->
  Py.getitem doc "store" = Raise e ->
  load f m = (Raise e, m).
Proof.
  intros Hf Hs. unfold load, try_except, json_load_from, bind, gets, lift.
  simpl. rewrite Hf. simpl. rewrite Hs.
  rewrite (getitem_not_FileNotFoundError _ _ _ Hs). reflexivity.
Qed.

(** [data["expirations"]] raises: [self.store] was assigned already. *)
Lemma load_no_expirations (m : Machine) (f : string) (doc st : pyval)
  (e : exn) :
  files (world m) !! f = Some (JSON doc) ->
  Py.getitem doc "store" = Ok st ->
  Py.getitem doc "expirations" = Raise e ->
  load f m = (Raise e, on_self (with_store st) m).
Proof.
  intros Hf Hs He.
  unfold load, try_except, json_load_from, bind, gets, lift, modify.
  simpl. rewrite Hf. simpl. rewrite Hs. simpl. rewrite He.
  rewrite (getitem_not_FileNotFoundError _ _ _ He). reflexivity.
Qed.

Lemma load_both (m : Machine) (f : string) (doc st ex : pyval) :
  files (world m) !! f = Some (JSON doc) ->
  Py.getitem doc "store" = Ok st ->
  Py.getitem doc "expirations" = Ok ex ->
  load f m
  = (Ok tt,
     after (print_if_verbose (Line_loaded f))
       (on_self (fun o => with_expirations ex (with_store st o)) m)).
Proof.
  intros Hf Hs He.
  unfold load, try_except, json_load_from, bind, gets, lift, modify.
  simpl. rewrite Hf. simpl. rewrite Hs. simpl. rewrite He. simpl.
  rewrite print_if_verbose_eq. reflexivity.
Qed.

(** ** C1: a snapshot without ["expirations"] *)

(** C1 at its failing input: the file holds [{"store": {"x": "1"}}].
    [load] raises [KeyError('expirations')], and by then [self.store] is the
    dictionary of the file while [self.expirations] is the old one. *)
Theorem load_half_snapshot_overwrites_store :
  store (self half_snapshot) = PDict {["a" := PStr "1"]} /\
  outcome (load "f.json") half_snapshot = Raise (KeyError "expirations") /\
  store (self (after (load "f.json") half_snapshot))
  = PDict {["x" := PStr "1"]} /\
  expirations (self (after (load "f.json") half_snapshot))
  = PDict {["a" := PNum 99999]}.
Proof. vm_compute. auto. Qed.

(** The other two malformed files of C1 leave the instance as it was. *)
Lemma load_malformed_unchanged (m : Machine) (f : string) :
  (forall txt, files (world m) !! f = Some (NotJSON txt) ->
     load f m = (Raise JSONDecodeError, m)) /\
  (forall d, files (world m) !! f = Some (JSON (PDict d)) ->
     d !! "store" = None ->
     load f m = (Raise (KeyError "store"), m)).
Proof.
  split.
  - intros txt Hf. exact (load_not_json m f txt Hf).
  - intros d Hf Hs. apply (load_no_store m f (PDict d)); [exact Hf|].
    simpl. rewrite Hs. reflexivity.
Qed.

(** ** C3: [save] then [load] *)

Lemma snapshot_store (o : t) : Py.getitem (snapshot o) "store" = Ok (store o).
Proof. unfold snapshot. simpl. rewrite lookup_insert_eq. reflexivity. Qed.

Lemma snapshot_expirations (o : t) :
  Py.getitem (snapshot o) "expirations" = Ok (expirations o).
Proof.
  unfold snapshot. simpl.
  rewrite lookup_insert_ne by discriminate.
  rewrite lookup_insert_eq. reflexivity.
Qed.

(** C3: [save(path)] returns, and [load(path)] on a fresh instance, in any
    world whose file [path] is the one [save] wrote, returns and makes
    [store] and [expirations] equal to those of the saved instance: every
    key comes back with its value and its expiration, expired or not. *)
Theorem save_load_roundtrip (m : Machine) (path : string)
  (expiration_time : Z) (auto_save verbose : bool) (w : World) :
  files w !! path = files (world (after (save path) m)) !! path ->
  let fresh := mkMachine (init expiration_time auto_save verbose) w in
  outcome (save path) m = Ok tt /\
  outcome (load path) fresh = Ok tt /\
  store (self (after (load path) fresh)) = store (self m) /\
  expirations (self (after (load path) fresh)) = expirations (self m).
Proof.
  intros Hw fresh. unfold outcome, after in *.
  rewrite save_eq in Hw. rewrite save_eq. simpl in *.
  destruct (save_world path m) as (Hf & _). simpl in Hf.
  rewrite Hf, lookup_insert_eq in Hw.
  rewrite (load_both fresh path _ _ _ Hw (snapshot_store _)
             (snapshot_expirations _)).
  simpl. rewrite print_if_verbose_self. simpl. auto.
Qed.

Lemma save_load_roundtrip_witness :
  let m := after (set ["a b"; "c, d"] (Some (-1)))
             (mkMachine (init 10 false true) world0) in
  let fresh := mkMachine (init 500 true false) (world (after (save "f.json") m)) in
  store (self m) = PDict (<["a" := PStr "b"]> {["c" := PStr "d"]}) /\
  store (self (after (load "f.json") fresh)) = store (self m) /\
  expirations (self (after (load "f.json") fresh)) = expirations (self m).
Proof.
  pose (m := after (set ["a b"; "c, d"] (Some (-1)))
               (mkMachine (init 10 false true) world0)).
  pose proof (save_load_roundtrip m "f.json" 500 true false
                (world (after (save "f.json") m)) eq_refl)
    as (_ & _ & Hs & He).
  split; [vm_compute; reflexivity|]. split; [exact Hs|exact He].
Defined.

(** ** C4: when [set] and [delete] write the snapshot *)

Lemma same_files_refl (m : Machine) : same_files m m.
Proof. unfold same_files. auto. Qed.

Lemma same_files_trans (m1 m2 m3 : Machine) :
  same_files m1 m2 -> same_files m2 m3 -> same_files m1 m3.
Proof.
  unfold same_files. intros (Hf & Hw & Ha) (Hf' & Hw' & Ha').
  repeat split; congruence.
Qed.

Lemma same_files_print (l : line) (m : Machine) :
  same_files m (after (print_if_verbose l) m).
Proof.
  unfold same_files. rewrite print_if_verbose_self.
  destruct (print_if_verbose_world l m) as (Hf & Hw & _). auto.
Qed.

(** One turn of the loop of [set], with its [except ValueError]. *)
Lemma set_pair_same_files (kv : string) (ttl : option Z) (m : Machine) :
  same_files m
    (after (try_except (set_pair kv ttl) Py.is_ValueError
              (do! print_if_verbose (Line_set_error kv) in ret ttl)) m).
Proof.
  unfold after, try_except, set_pair, bind, lift, gets, modify, time_time.
  simpl.
  destruct (Py.unpack2 (tokens kv)) as [[k v]|ex]; simpl.
  - destruct (Py.setitem (store (self m)) k (PStr v)) as [st|ex]; simpl.
    + destruct (Py.setitem (expirations (self m)) k _) as [xs|ex]; simpl.
      * rewrite print_if_verbose_eq. simpl.
        eapply same_files_trans; [|apply same_files_print].
        unfold same_files. simpl. auto.
      * destruct (Py.is_ValueError ex); simpl.
        -- rewrite print_if_verbose_eq. simpl.
           eapply same_files_trans; [|apply same_files_print].
           unfold same_files. simpl. auto.
        -- unfold same_files. simpl. auto.
    + destruct (Py.is_ValueError ex); simpl.
      * rewrite print_if_verbose_eq. simpl. apply same_files_print.
      * apply same_files_refl.
  - destruct (Py.is_ValueError ex); simpl.
    + rewrite print_if_verbose_eq. simpl. apply same_files_print.
    + apply same_files_refl.
Qed.

Lemma set_loop_same_files (key_values : list string) (ttl : option Z)
  (m : Machine) :
  same_files m (after (set_loop key_values ttl) m).
Proof.
  revert ttl m. induction key_values as [|kv rest IH]; intros ttl m.
  - apply same_files_refl.
  - pose proof (set_pair_same_files kv ttl m) as Hp.
    unfold after in *. simpl. unfold bind at 1.
    destruct (try_except _ _ _ m) as [[ttl'|ex] m1]; simpl in *.
    + eapply same_files_trans; [exact Hp|apply IH].
    + exact Hp.
Qed.

(** [set] either raises in its loop, or ends with the conditional [save]. *)
Lemma set_shape (key_values : list string) (ttl : option Z) (m : Machine) :
  let m2 := after (set_loop key_values ttl) m in
  same_files m m2 /\
  ((exists ex, set key_values ttl m = (Raise ex, m2)) \/
   set key_values ttl m = (Ok tt, autosaved m2)).
Proof.
  intros m2. split; [apply set_loop_same_files|].
  subst m2. unfold set, after, bind.
  destruct (set_loop key_values ttl m) as [[[]|ex] m2]; simpl.
  - right. unfold gets. simpl. apply autosave_eq.
  - left. eauto.
Qed.

(** [delete] either raises before its conditional [save], or ends with it. *)
Lemma delete_shape (k : string) (m : Machine) :
  exists m2,
    same_files m m2 /\
    ((exists ex, delete k m = (Raise ex, m2)) \/
     delete k m = (Ok tt, autosaved m2)).
Proof.
  unfold delete, bind, lift, gets, modify. simpl.
  destruct (Py.contains (store (self m)) k) as [[|]|ex]; simpl.
  - destruct (Py.delitem (store (self m)) k) as [st|ex]; simpl.
    + destruct (Py.contains (expirations (self m)) k) as [[|]|ex]; simpl.
      * destruct (Py.delitem (expirations (self m)) k) as [xs|ex]; simpl.
        -- rewrite print_if_verbose_eq. simpl.
           eexists. split; [|right; apply autosave_eq].
           eapply same_files_trans; [|apply same_files_print].
           unfold same_files. simpl. auto.
        -- eexists. split; [|left; eauto]. unfold same_files. simpl. auto.
      * rewrite print_if_verbose_eq. simpl.
        eexists. split; [|right; apply autosave_eq].
        eapply same_files_trans; [|apply same_files_print].
        unfold same_files. simpl. auto.
      * eexists. split; [|left; eauto]. unfold same_files. simpl. auto.
    + eexists. split; [|left; eauto]. apply same_files_refl.
  - rewrite print_if_verbose_eq. simpl.
    eexists. split; [|right; apply autosave_eq]. apply same_files_print.
  - eexists. split; [|left; eauto]. apply same_files_refl.
Qed.

(** After the conditional [save]: the file is the snapshot, or no write. *)
Lemma autosaved_effect (m m2 : Machine) :
  same_files m m2 ->
  (auto_save_enabled (self m) = true ->
     on_disk (autosaved m2) = Some (JSON (snapshot (self (autosaved m2)))) /\
     on_disk (autosaved m2)
     = on_disk (after (save default_filename) (autosaved m2))) /\
  (auto_save_enabled (self m) = false ->
     files (world (autosaved m2)) = files (world m) /\
     writes (world (autosaved m2)) = writes (world m)).
Proof.
  intros (Hf & Hw & Ha). split; intros Hauto; rewrite Hauto in Ha.
  - rewrite autosaved_self. unfold autosaved. rewrite Ha. unfold on_disk.
    destruct (save_world default_filename m2) as (Hf2 & _).
    destruct (save_world default_filename (after (save default_filename) m2))
      as (Hf3 & _).
    simpl in *. rewrite Hf3, Hf2. rewrite !lookup_insert_eq.
    rewrite save_self. auto.
  - unfold autosaved. rewrite Ha. auto.
Qed.

(** C4: with [auto_save_enabled] set, when [set] or [delete] returns, the
    file that [save()] writes holds what [save()] would write from the
    instance as it is then; with [auto_save_enabled] unset, [set] and
    [delete] open no file for writing and leave every file as it was. *)
Theorem autosave_semantics (m : Machine) (key_values : list string)
  (ttl : option Z) (k : string) :
  (auto_save_enabled (self m) = true ->
   (forall m', set key_values ttl m = (Ok tt, m') ->
      on_disk m' = on_disk (after (save default_filename) m') /\
      on_disk m' = Some (JSON (snapshot (self m')))) /\
   (forall m', delete k m = (Ok tt, m') ->
      on_disk m' = on_disk (after (save default_filename) m') /\
      on_disk m' = Some (JSON (snapshot (self m'))))) /\
  (auto_save_enabled (self m) = false ->
   (files (world (after (set key_values ttl) m)) = files (world m) /\
    writes (world (after (set key_values ttl) m)) = writes (world m)) /\
   (files (world (after (delete k) m)) = files (world m) /\
    writes (world (after (delete k) m)) = writes (world m))).
Proof.
  destruct (set_shape key_values ttl m) as (Hs & Hset).
  destruct (delete_shape k m) as (md & Hd & Hdel).
  set (ms := after (set_loop key_values ttl) m) in *.
  destruct (autosaved_effect m ms Hs) as (Hs1 & Hs0).
  destruct (autosaved_effect m md Hd) as (Hd1 & Hd0).
  split; intros Hauto.
  - split; intros m' Hm'.
    + destruct Hset as [(ex & Hr)|Hr]; rewrite Hr in Hm'; [discriminate|].
      injection Hm' as <-. destruct (Hs1 Hauto); auto.
    + destruct Hdel as [(ex & Hr)|Hr]; rewrite Hr in Hm'; [discriminate|].
      injection Hm' as <-. destruct (Hd1 Hauto); auto.
  - unfold after. split.
    + destruct Hset as [(ex & Hr)|Hr]; rewrite Hr; simpl.
      * destruct Hs as (Hf & Hw & _). rewrite Hauto in *. auto.
      * apply (Hs0 Hauto).
    + destruct Hdel as [(ex & Hr)|Hr]; rewrite Hr; simpl.
      * destruct Hd as (Hf & Hw & _). auto.
      * apply (Hd0 Hauto).
Qed.

Lemma autosave_semantics_witness :
  let m1 := mkMachine (init 10 true true) world0 in
  let m0 := mkMachine (init 10 false true) world0 in
  (auto_save_enabled (self m1) = true /\
   outcome (set ["a b"] None) m1 = Ok tt /\
   on_disk (after (set ["a b"] None) m1)
   = Some (JSON (snapshot (self (after (set ["a b"] None) m1))))) /\
  (auto_save_enabled (self m0) = false /\
   writes (world (after (set ["a b"] None) m0)) = [] /\
   writes (world (after (delete "a") m0)) = []).
Proof.
  pose (m1 := mkMachine (init 10 true true) world0).
  pose (m0 := mkMachine (init 10 false true) world0).
  pose proof (autosave_semantics m1 ["a b"] None "a") as (H1 & _).
  pose proof (autosave_semantics m0 ["a b"] None "a") as (_ & H0).
  destruct (H1 eq_refl) as (Hset & _).
  destruct (H0 eq_refl) as ((_ & Hws) & (_ & Hwd)).
  split.
  - split; [reflexivity|]. split; [vm_compute; reflexivity|].
    apply (Hset (after (set ["a b"] None) m1)). vm_compute. reflexivity.
  - split; [reflexivity|]. split; [exact Hws|exact Hwd].
Defined.

(** ** The loop of [set] on dictionaries *)

Lemma parse_pair_Some (kv k v : string) :
  parse_pair kv = Some (k, v) -> Py.unpack2 (tokens kv) = Ok (k, v).
Proof.
  unfold parse_pair. destruct (Py.unpack2 (tokens kv)); congruence.
Qed.

Lemma parse_pair_None (kv : string) :
  parse_pair kv = None -> Py.unpack2 (tokens kv) = Raise ValueError.
Proof.
  unfold parse_pair, Py.unpack2.
  destruct (tokens kv) as [|a [|b [|c l]]]; congruence.
Qed.

(** A pair that decodes: both dictionaries get the key. *)
Lemma set_pair_accepted (m : Machine) (kv k v : string) (ttl : option Z)
  (d e : gmap string pyval) :
  parse_pair kv = Some (k, v) ->
  store (self m) = PDict d -> expirations (self m) = PDict e ->
  let x := effective_ttl (self m) ttl in
  try_except (set_pair kv ttl) Py.is_ValueError
    (do! print_if_verbose (Line_set_error kv) in ret ttl) m
  = (Ok (Some x),
     after (print_if_verbose (Line_set k v))
       (on_self (fun o => with_expirations (PDict (<[k := PNum (now m + x)]> e))
                            (with_store (PDict (<[k := PStr v]> d)) o))
          (after time_time m))).
Proof.
  intros Hp Hd He x. subst x.
  unfold try_except, set_pair, bind, lift, gets, modify, time_time, after.
  simpl. rewrite (parse_pair_Some _ _ _ Hp). simpl.
  rewrite Hd. simpl. rewrite He. simpl.
  rewrite print_if_verbose_eq. reflexivity.
Qed.

(** A pair that does not decode: [ValueError] is caught, nothing changes
    but the output. *)
Lemma set_pair_rejected (m : Machine) (kv : string) (ttl : option Z) :
  parse_pair kv = None ->
  try_except (set_pair kv ttl) Py.is_ValueError
    (do! print_if_verbose (Line_set_error kv) in ret ttl) m
  = (Ok ttl, after (print_if_verbose (Line_set_error kv)) m).
Proof.
  intros Hp. unfold try_except, set_pair, bind, lift. simpl.
  rewrite (parse_pair_None _ Hp). simpl.
  rewrite print_if_verbose_eq. reflexivity.
Qed.

Lemma set_loop_cons (kv : string) (rest : list string) (ttl : option Z)
  (m : Machine) :
  set_loop (kv :: rest) ttl m
  = match try_except (set_pair kv ttl) Py.is_ValueError
            (do! print_if_verbose (Line_set_error kv) in ret ttl) m with
    | (Ok ttl', m1) => set_loop rest ttl' m1
    | (Raise ex, m1) => (Raise ex, m1)
    end.
Proof. reflexivity. Qed.

(** What the loop of [set] makes of two dictionaries. *)
Lemma set_loop_dicts (key_values : list string) :
  forall (ttl : option Z) (m : Machine) (d e : gmap string pyval),
  store (self m) = PDict d -> expirations (self m) = PDict e ->
  let m' := after (set_loop key_values ttl) m in
  let ps := accepted key_values in
  set_loop key_values ttl m = (Ok tt, m') /\
  store (self m') = PDict (stored ps d) /\
  expirations (self m')
  = PDict (stamped (clock (world m)) (ticks (world m))
             (effective_ttl (self m) ttl) ps e) /\
  auto_save_enabled (self m') = auto_save_enabled (self m) /\
  expiration_time (self m') = expiration_time (self m) /\
  verbose (self m') = verbose (self m) /\
  clock (world m') = clock (world m) /\
  ticks (world m') = (ticks (world m) + length ps)%nat.
Proof.
  induction key_values as [|kv rest IH]; intros ttl m d e Hd He.
  - unfold after. simpl. rewrite Hd, He, Nat.add_0_r. repeat split; auto.
  - unfold after, accepted. rewrite set_loop_cons. simpl omap.
    destruct (parse_pair kv) as [[k v]|] eqn:Hp.
    + rewrite (set_pair_accepted m kv k v ttl d e Hp Hd He). simpl.
      set (m1 := after (print_if_verbose (Line_set k v)) _).
      assert (Hs1 : self m1
                    = with_expirations
                        (PDict (<[k := PNum (now m + effective_ttl (self m) ttl)]> e))
                        (with_store (PDict (<[k := PStr v]> d)) (self m)))
        by (subst m1; rewrite print_if_verbose_self; reflexivity).
      assert (Hw1 : clock (world m1) = clock (world m) /\
                    ticks (world m1) = S (ticks (world m))).
      { subst m1.
        match goal with
        | |- context [after (print_if_verbose ?l) ?mm] =>
            destruct (print_if_verbose_world l mm) as (_ & _ & Hc & Ht)
        end.
        simpl in *. auto. }
      destruct Hw1 as (Hc1 & Ht1).
      destruct (IH (Some (effective_ttl (self m) ttl)) m1
                  (<[k := PStr v]> d)
                  (<[k := PNum (now m + effective_ttl (self m) ttl)]> e))
        as (Heq & Hst & Hex & Ha & Het & Hv & Hc & Ht);
        [rewrite Hs1; reflexivity|rewrite Hs1; reflexivity|].
      unfold after in *. rewrite Heq. simpl.
      rewrite Hst, Hex, Ha, Het, Hv, Hc, Ht, Hs1, Hc1, Ht1. simpl.
      repeat split; auto; lia.
    + rewrite (set_pair_rejected m kv ttl Hp).
      set (m1 := after (print_if_verbose (Line_set_error kv)) m).
      assert (Hs1 : self m1 = self m)
        by (subst m1; apply print_if_verbose_self).
      destruct (print_if_verbose_world (Line_set_error kv) m)
        as (_ & _ & Hc1 & Ht1).
      simpl in Hc1, Ht1. fold m1 in Hc1, Ht1.
      destruct (IH ttl m1 d e)
        as (Heq & Hst & Hex & Ha & Het & Hv & Hc & Ht);
        [rewrite Hs1; exact Hd|rewrite Hs1; exact He|].
      unfold after in *. rewrite Heq. simpl.
      rewrite Hst, Hex, Ha, Het, Hv, Hc, Ht, Hs1, Hc1, Ht1.
      repeat split; auto.
Qed.

Lemma stored_lookup (ps : list (string * string)) :
  forall (d : gmap string pyval) (k : string),
  stored ps d !! k
  = match last_value ps k with
    | Some v => Some (PStr v)
    | None => d !! k
    end.
Proof.
  induction ps as [|[k' v] ps IH]; intros d k; simpl; [reflexivity|].
  rewrite IH. destruct (last_value ps k) as [v'|]; [reflexivity|].
  destruct (String.eqb_spec k' k) as [->|Hne].
  - apply lookup_insert_eq.
  - apply lookup_insert_ne. exact Hne.
Qed.

Lemma stamped_lookup (clk : nat -> Z) (ttl : Z) (ps : list (string * string)) :
  forall (n : nat) (e : gmap string pyval) (k : string),
  match last_value ps k with
  | Some _ =>
      exists j : nat,
        (n <= j < n + length ps)%nat /\
        stamped clk n ttl ps e !! k = Some (PNum (clk j + ttl))
  | None => stamped clk n ttl ps e !! k = e !! k
  end.
Proof.
  induction ps as [|[k' v] ps IH]; intros n e k; simpl; [reflexivity|].
  specialize (IH (S n) (<[k' := PNum (clk n + ttl)]> e) k).
  destruct (last_value ps k) as [v'|].
  - destruct IH as (j & Hj & Hl). exists j. split; [lia|exact Hl].
  - destruct (String.eqb_spec k' k) as [->|Hne].
    + exists n. split; [lia|]. rewrite IH. apply lookup_insert_eq.
    + rewrite IH. apply lookup_insert_ne. exact Hne.
Qed.

Lemma last_value_elem (ps : list (string * string)) (k v : string) :
  (k, v) ∈ ps -> exists v', last_value ps k = Some v'.
Proof.
  induction ps as [|[k' v0] ps IH]; intros Hin.
  - inversion Hin.
  - simpl. apply elem_of_cons in Hin as [Heq|Hin].
    + injection Heq as <- <-.
      destruct (last_value ps k); [eauto|]. rewrite String.eqb_refl. eauto.
    + destruct (IH Hin) as (v' & ->). eauto.
Qed.

Lemma accepted_app (l1 l2 : list string) :
  accepted (l1 ++ l2) = accepted l1 ++ accepted l2.
Proof. apply omap_app. Qed.

Lemma accepted_well_formed (l : list string) :
  Forall (fun kv => is_Some (parse_pair kv)) l ->
  length (accepted l) = length l.
Proof.
  induction 1 as [|kv l [p Hp] _ IH]; [reflexivity|].
  unfold accepted in *. simpl. rewrite Hp. simpl. f_equal. exact IH.
Qed.

Lemma t_eq (o o' : t) :
  store o = store o' -> expirations o = expirations o' ->
  auto_save_enabled o = auto_save_enabled o' ->
  expiration_time o = expiration_time o' -> verbose o = verbose o' ->
  o = o'.
Proof. destruct o, o'. simpl. congruence. Qed.

(** What [set] makes of two dictionaries. *)
Lemma set_dicts (key_values : list string) (ttl : option Z) (m : Machine)
  (d e : gmap string pyval) :
  store (self m) = PDict d -> expirations (self m) = PDict e ->
  let m' := after (set key_values ttl) m in
  let ps := accepted key_values in
  set key_values ttl m = (Ok tt, m') /\
  store (self m') = PDict (stored ps d) /\
  expirations (self m')
  = PDict (stamped (clock (world m)) (ticks (world m))
             (effective_ttl (self m) ttl) ps e) /\
  auto_save_enabled (self m') = auto_save_enabled (self m) /\
  expiration_time (self m') = expiration_time (self m) /\
  verbose (self m') = verbose (self m) /\
  clock (world m') = clock (world m) /\
  ticks (world m') = (ticks (world m) + length ps)%nat.
Proof.
  intros Hd He m' ps.
  destruct (set_loop_dicts key_values ttl m d e Hd He)
    as (Heq & Hst & Hex & Ha & Het & Hv & Hc & Ht).
  assert (Hset : set key_values ttl m
                 = (Ok tt, autosaved (after (set_loop key_values ttl) m))).
  { unfold set, bind at 1. rewrite Heq. unfold bind, gets. simpl.
    apply autosave_eq. }
  subst m'. unfold after at 1 2 3 4 5 6 7 8. rewrite Hset. simpl.
  rewrite autosaved_self.
  assert (Hw : clock (world (autosaved (after (set_loop key_values ttl) m)))
               = clock (world (after (set_loop key_values ttl) m)) /\
               ticks (world (autosaved (after (set_loop key_values ttl) m)))
               = ticks (world (after (set_loop key_values ttl) m))).
  { unfold autosaved. destruct (auto_save_enabled _); [|auto].
    destruct (save_world default_filename (after (set_loop key_values ttl) m))
      as (_ & _ & Hc' & Ht'). auto. }
  destruct Hw as (Hc' & Ht'). rewrite Hc', Ht'.
  repeat split; assumption.
Qed.

(** ** C7: a batch with one malformed pair *)

(** C7: in a batch of [N] pairs that decode and one that does not, with a
    TTL that converts to a float (beyond that range the code raises
    [OverflowError] at the first pair that decodes), [set] returns without an
    exception; all [N] pairs are accepted and assigned in order, to [store]
    and (with a timestamp) to [expirations], so that each of their keys ends
    up in both, [store] holding the value of the last pair for that key; and
    the instance is the one the batch without the malformed pair leaves:
    that pair stored nothing.  Where the sums are exact, the timestamps are
    the clock readings plus the TTL. *)
Theorem batch_with_malformed_pair (m : Machine) (l1 l2 : list string)
  (bad : string) (ttl : option Z) (d e : gmap string pyval) :
  store (self m) = PDict d -> expirations (self m) = PDict e ->
  Forall (fun kv => is_Some (parse_pair kv)) (l1 ++ l2) ->
  parse_pair bad = None ->
  converts_to_float (effective_ttl (self m) ttl) ->
  let m' := after (set (l1 ++ bad :: l2) ttl) m in
  let ps := accepted (l1 ++ l2) in
  outcome (set (l1 ++ bad :: l2) ttl) m = Ok tt /\
  length ps = length (l1 ++ l2) /\
  store (self m') = PDict (stored ps d) /\
  (sums_exact (clock (world m)) (ticks (world m)) (length ps)
     (effective_ttl (self m) ttl) ->
   expirations (self m')
   = PDict (stamped (clock (world m)) (ticks (world m))
              (effective_ttl (self m) ttl) ps e)) /\
  (forall k v, (k, v) ∈ ps ->
     exists v' x,
       last_value ps k = Some v' /\
       entry (store (self m')) k = Some (PStr v') /\
       entry (expirations (self m')) k = Some (PNum x)) /\
  self m' = self (after (set (l1 ++ l2) ttl) m).
Proof.
  intros Hd He Hwf Hbad Hrange m' ps.
  assert (Hacc : accepted (l1 ++ bad :: l2) = ps).
  { subst ps. rewrite !accepted_app. f_equal.
    unfold accepted. simpl. rewrite Hbad. reflexivity. }
  destruct (set_dicts (l1 ++ bad :: l2) ttl m d e Hd He)
    as (Heq & Hst & Hex & Ha & Het & Hv & _).
  destruct (set_dicts (l1 ++ l2) ttl m d e Hd He)
    as (_ & Hst' & Hex' & Ha' & Het' & Hv' & _).
  rewrite Hacc in Hst, Hex. fold m' in Heq, Hst, Hex, Ha, Het, Hv.
  fold ps in Hst', Hex'.
  split; [unfold outcome; rewrite Heq; reflexivity|].
  split; [apply accepted_well_formed; exact Hwf|].
  split; [exact Hst|]. split; [intros _; exact Hex|]. split.
  - intros k v Hin. destruct (last_value_elem ps k v Hin) as (v' & Hlast).
    rewrite Hst, Hex. simpl.
    pose proof (stored_lookup ps d k) as Hs. rewrite Hlast in Hs.
    pose proof (stamped_lookup (clock (world m))
                  (effective_ttl (self m) ttl) ps (ticks (world m)) e k) as Hx.
    rewrite Hlast in Hx. destruct Hx as (j & _ & Hx).
    exists v', (clock (world m) j + effective_ttl (self m) ttl). auto.
  - apply t_eq; congruence.
Qed.

Lemma batch_with_malformed_pair_witness :
  let m := mkMachine (init 10 true true) world0 in
  let m' := after (set ["a b"; "oops"; "c, d"] None) m in
  Forall (fun kv => is_Some (parse_pair kv)) (["a b"] ++ ["c, d"]) /\
  parse_pair "oops" = None /\
  converts_to_float (effective_ttl (self m) None) /\
  sums_exact (clock (world m)) (ticks (world m)) 2
    (effective_ttl (self m) None) /\
  outcome (set ["a b"; "oops"; "c, d"] None) m = Ok tt /\
  store (self m') = PDict (<["c" := PStr "d"]> (<["a" := PStr "b"]> ∅)) /\
  expirations (self m')
  = PDict (<["c" := PNum 1011]> (<["a" := PNum 1010]> ∅)).
Proof.
  pose (m := mkMachine (init 10 true true) world0).
  assert (Hwf : Forall (fun kv => is_Some (parse_pair kv)) (["a b"] ++ ["c, d"])).
  { repeat constructor; vm_compute; eauto. }
  assert (Hbad : parse_pair "oops" = None) by reflexivity.
  assert (Hrange : converts_to_float (effective_ttl (self m) None))
    by (apply Z.leb_le; vm_compute; reflexivity).
  assert (Hexact : sums_exact (clock (world m)) (ticks (world m)) 2
                     (effective_ttl (self m) None)).
  { split; [apply Z.leb_le; reflexivity|].
    intros j Hj. change (Z.abs (1000 + Z.of_nat j) <= 4503599627370496).
    change (0 <= j < 2)%nat in Hj. lia. }
  pose proof (batch_with_malformed_pair m ["a b"] ["c, d"] "oops" None ∅ ∅
                eq_refl eq_refl Hwf Hbad Hrange) as (Ho & _ & Hs & Hx & _).
  split; [exact Hwf|]. split; [exact Hbad|]. split; [exact Hrange|].
  split; [exact Hexact|]. split; [exact Ho|].
  split; [exact Hs|exact (Hx Hexact)].
Defined.

(** ** C5: a TTL of zero or less *)

(** C5: after [set] stored [k] with a TTL of zero or less that converts to a
    float (beyond that range the code raises [OverflowError] and sets no
    expiration), a [get(k)] whose clock reading is strictly later than the
    readings of that [set] returns [None], and afterwards [k] is in neither
    [store] nor [expirations]. *)
Theorem nonpositive_ttl_expires (m : Machine) (key_values : list string)
  (ttl : option Z) (k v : string) (d e : gmap string pyval) :
  store (self m) = PDict d -> expirations (self m) = PDict e ->
  last_value (accepted key_values) k = Some v ->
  effective_ttl (self m) ttl <= 0 ->
  converts_to_float (effective_ttl (self m) ttl) ->
  let m1 := after (set key_values ttl) m in
  (forall j : nat, (ticks (world m) <= j < ticks (world m1))%nat ->
     clock (world m) j < now m1) ->
  let m2 := after (get k) m1 in
  outcome (set key_values ttl) m = Ok tt /\
  entry (store (self m1)) k = Some (PStr v) /\
  outcome (get k) m1 = Ok PNone /\
  entry (store (self m2)) k = None /\
  entry (expirations (self m2)) k = None.
Proof.
  intros Hd He Hlast Httl Hrange m1 Hlater m2.
  destruct (set_dicts key_values ttl m d e Hd He)
    as (Heq & Hst & Hex & _ & _ & _ & Hc & Ht).
  fold m1 in Heq, Hst, Hex, Hc, Ht.
  pose proof (stored_lookup (accepted key_values) d k) as Hs.
  rewrite Hlast in Hs.
  pose proof (stamped_lookup (clock (world m)) (effective_ttl (self m) ttl)
                (accepted key_values) (ticks (world m)) e k) as Hx.
  rewrite Hlast in Hx. destruct Hx as (j & Hj & Hx).
  rewrite <- Ht in Hj. specialize (Hlater j Hj).
  set (x := clock (world m) j + effective_ttl (self m) ttl) in *.
  pose proof (is_expired_entry m1 k _ x Hex Hx) as Hexp.
  assert (Hb : (x <? now m1) = true) by (apply Z.ltb_lt; subst x; lia).
  rewrite Hb in Hexp.
  pose proof (delete_present (after time_time m1) k _ _ (PStr v) Hst Hex Hs)
    as Hdel.
  pose proof (get_expired m1 _ _ k Hexp Hdel) as Hget.
  split; [unfold outcome; rewrite Heq; reflexivity|].
  split; [rewrite Hst; exact Hs|].
  subst m2. unfold outcome, after. rewrite Hget. simpl.
  rewrite print_if_verbose_self, autosaved_self, print_if_verbose_self.
  simpl. rewrite !lookup_delete_eq. auto.
Qed.

Lemma nonpositive_ttl_expires_witness :
  let m := mkMachine (init 10 true true) world0 in
  let m1 := after (set ["a b"] (Some 0)) m in
  let m2 := after (get "a") m1 in
  last_value (accepted ["a b"]) "a" = Some "b" /\
  effective_ttl (self m) (Some 0) <= 0 /\
  converts_to_float (effective_ttl (self m) (Some 0)) /\
  entry (store (self m1)) "a" = Some (PStr "b") /\
  outcome (get "a") m1 = Ok PNone /\
  entry (store (self m2)) "a" = None /\
  entry (expirations (self m2)) "a" = None.
Proof.
  pose (m := mkMachine (init 10 true true) world0).
  assert (Hl : last_value (accepted ["a b"]) "a" = Some "b") by reflexivity.
  assert (Ht : effective_ttl (self m) (Some 0) <= 0) by (simpl; lia).
  assert (Hrange : converts_to_float (effective_ttl (self m) (Some 0)))
    by (apply Z.leb_le; vm_compute; reflexivity).
  pose (m1 := after (set ["a b"] (Some 0)) m).
  assert (Hlater : forall j : nat,
             (ticks (world m) <= j < ticks (world m1))%nat ->
             clock (world m) j < now m1).
  { intros j Hj. change (1000 + Z.of_nat j < 1000 + Z.of_nat 1).
    change (0 <= j < 1)%nat in Hj. lia. }
  pose proof (nonpositive_ttl_expires m ["a b"] (Some 0) "a" "b" ∅ ∅
                eq_refl eq_refl Hl Ht Hrange Hlater) as (_ & H1 & H2 & H3 & H4).
  split; [exact Hl|]. split; [exact Ht|]. split; [exact Hrange|].
  split; [exact H1|].
  split; [exact H2|]. split; [exact H3|exact H4].
Defined.

(** ** C9: a positive TTL *)



(** ** C8: decoding a pair *)

Lemma append_snoc (cur : string) (c : ascii) (s : string) :
  (cur +:+ String c "") +:+ s = cur +:+ String c s.
Proof.
  induction cur as [|a cur IH]; [reflexivity|].
  change (String a ((cur +:+ String c "") +:+ s) = String a (cur +:+ String c s)).
  f_equal. exact IH.
Qed.

Lemma append_empty_r (s : string) : s +:+ "" = s.
Proof.
  induction s as [|a s IH]; [reflexivity|].
  change (String a (s +:+ "") = String a s). f_equal. exact IH.
Qed.

(** Without an occurrence of [", "], [split(", ")] returns the string. *)
Lemma split_from_no_sep (s : string) :
  forall cur : string,
  PyStr.contains ", " s = false ->
  PyStr.split_from ", " 0 cur s = [cur +:+ s].
Proof.
  induction s as [|c s IH]; intros cur Hc.
  - simpl. now rewrite append_empty_r.
  - change (PyStr.contains ", " (String c s))
      with (String.prefix ", " (String c s) || PyStr.contains ", " s) in Hc.
    apply orb_false_iff in Hc as (Hp & Hc).
    change (PyStr.split_from ", " 0 cur (String c s))
      with (if String.prefix ", " (String c s)
            then cur :: PyStr.split_from ", " 1 "" s
            else PyStr.split_from ", " 0 (cur +:+ String c "") s).
    rewrite Hp, (IH _ Hc), append_snoc. reflexivity.
Qed.

(** [s.startswith(", ")] for a non-empty [s]. *)
Lemma prefix_sep (c : ascii) (s : string) :
  String.prefix ", " (String c s)
  = Ascii.eqb "," c &&
    match s with
    | EmptyString => false
    | String c' _ => Ascii.eqb " " c'
    end.
Proof.
  change (String.prefix ", " (String c s))
    with (if Ascii.ascii_dec "," c then String.prefix " " s else false).
  destruct (Ascii.ascii_dec "," c) as [<-|Hne].
  - rewrite Ascii.eqb_refl. destruct s as [|c' s]; [reflexivity|].
    change (String.prefix " " (String c' s))
      with (if Ascii.ascii_dec " " c' then String.prefix "" s else false).
    destruct (Ascii.ascii_dec " " c') as [<-|Hne].
    + rewrite Ascii.eqb_refl. destruct s; reflexivity.
    + apply Ascii.eqb_neq in Hne. rewrite Hne. reflexivity.
  - apply Ascii.eqb_neq in Hne. rewrite Hne. reflexivity.
Qed.

(** A separator after [k] does not begin earlier than [k] ends. *)
Lemma prefix_sep_append (c : ascii) (k rest : string) :
  String.prefix ", " (String c k) = false ->
  String.prefix ", " (String c (k +:+ ", " +:+ rest)) = false.
Proof.
  rewrite !prefix_sep. destruct k as [|c' k].
  - intros _. apply andb_false_r.
  - intros H. exact H.
Qed.

(** [(k + ", " + v).split(", ")] when neither part holds a [", "]. *)
Lemma split_comma_pair (k v : string) :
  forall cur : string,
  PyStr.contains ", " k = false -> PyStr.contains ", " v = false ->
  PyStr.split_from ", " 0 cur (k +:+ ", " +:+ v) = [cur +:+ k; v].
Proof.
  induction k as [|c k IH]; intros cur Hk Hv.
  - change (PyStr.split_from ", " 0 cur ("" +:+ ", " +:+ v))
      with (if String.prefix ", " (String "," (String " " v))
            then cur :: PyStr.split_from ", " 0 "" v
            else PyStr.split_from ", " 0 (cur +:+ String "," "") (String " " v)).
    rewrite prefix_sep. cbn [Ascii.eqb Bool.eqb andb].
    rewrite append_empty_r, (split_from_no_sep v "" Hv). reflexivity.
  - change (PyStr.contains ", " (String c k))
      with (String.prefix ", " (String c k) || PyStr.contains ", " k) in Hk.
    apply orb_false_iff in Hk as (Hp & Hk).
    change (PyStr.split_from ", " 0 cur (String c k +:+ ", " +:+ v))
      with (if String.prefix ", " (String c (k +:+ ", " +:+ v))
            then cur :: PyStr.split_from ", " 1 "" (k +:+ ", " +:+ v)
            else PyStr.split_from ", " 0 (cur +:+ String c "")
                   (k +:+ ", " +:+ v)).
    rewrite (prefix_sep_append c k v Hp), (IH _ Hk Hv), append_snoc.
    reflexivity.
Qed.

Lemma contains_sep_append (k v : string) :
  PyStr.contains ", " (k +:+ ", " +:+ v) = true.
Proof.
  induction k as [|c k IH].
  - change (String.prefix ", " (String "," (String " " v))
            || PyStr.contains ", " (String " " v) = true).
    rewrite prefix_sep. reflexivity.
  - change (String.prefix ", " (String c (k +:+ ", " +:+ v))
            || PyStr.contains ", " (k +:+ ", " +:+ v) = true).
    rewrite IH. apply orb_true_r.
Qed.

Lemma no_space_head (c : ascii) (s : string) :
  no_space (String c s) = true -> Ascii.eqb " " c = false.
Proof.
  intros Hs. apply andb_true_iff in Hs as (Hc & _).
  destruct (Ascii.eqb_spec " " c) as [<-|]; [discriminate|reflexivity].
Qed.

(** A string without whitespace holds no [", "]. *)
Lemma no_space_no_sep (s : string) :
  no_space s = true -> PyStr.contains ", " s = false.
Proof.
  induction s as [|c s IH]; [reflexivity|]. intros Hs.
  pose proof Hs as Hs'. apply andb_true_iff in Hs' as (_ & Hs').
  change (String.prefix ", " (String c s) || PyStr.contains ", " s = false).
  rewrite (IH Hs'), orb_false_r, prefix_sep.
  destruct s as [|c' s]; [apply andb_false_r|].
  rewrite (no_space_head c' s Hs'). apply andb_false_r.
Qed.

(** [k + " " + v] holds no [", "] unless [k] ends with a comma. *)
Lemma no_sep_in_spaced_pair (k v : string) :
  no_space k = true -> no_space v = true -> ends_with_comma k = false ->
  PyStr.contains ", " (k +:+ " " +:+ v) = false.
Proof.
  intros Hk Hv Hc. induction k as [|c k IH].
  - change (false || PyStr.contains ", " v = false).
    rewrite (no_space_no_sep v Hv). reflexivity.
  - pose proof Hk as Hk'. apply andb_true_iff in Hk' as (_ & Hk').
    change (String.prefix ", " (String c (k +:+ " " +:+ v))
            || PyStr.contains ", " (k +:+ " " +:+ v) = false).
    rewrite prefix_sep.
    destruct k as [|c' k].
    + rewrite (IH eq_refl eq_refl), orb_false_r.
      change (Ascii.eqb c "," = false) in Hc.
      rewrite Ascii.eqb_sym, Hc. reflexivity.
    + rewrite (IH Hk' Hc), orb_false_r.
      change (Ascii.eqb "," c && Ascii.eqb " " c' = false).
      rewrite (no_space_head c' k Hk'). apply andb_false_r.
Qed.

(** [split()] runs through a word without cutting. *)
Lemma split_ws_from_word (k : string) :
  forall cur rest : string,
  no_space k = true ->
  PyStr.split_ws_from cur (k +:+ rest) = PyStr.split_ws_from (cur +:+ k) rest.
Proof.
  induction k as [|c k IH]; intros cur rest Hk.
  - simpl. now rewrite append_empty_r.
  - simpl in Hk. apply andb_true_iff in Hk as (Hsp & Hk).
    apply negb_true_iff in Hsp.
    simpl. rewrite Hsp, (IH _ _ Hk), append_snoc. reflexivity.
Qed.

(** [(k + " " + v).split()] for two words. *)
Lemma split_ws_pair (k v : string) :
  k <> "" -> v <> "" -> no_space k = true -> no_space v = true ->
  PyStr.split_ws (k +:+ " " +:+ v) = [k; v].
Proof.
  intros Hk0 Hv0 Hk Hv. unfold PyStr.split_ws.
  rewrite (split_ws_from_word k "" _ Hk). simpl.
  change (PyStr.flush k (PyStr.split_ws_from "" v) = [k; v]).
  rewrite <- (append_empty_r v) at 1.
  rewrite (split_ws_from_word v "" "" Hv). simpl.
  destruct k; [congruence|]. destruct v; [congruence|]. reflexivity.
Qed.

Lemma parse_pair_tokens (kv k v : string) :
  parse_pair kv = Some (k, v) <-> tokens kv = [k; v].
Proof.
  unfold parse_pair, Py.unpack2.
  destruct (tokens kv) as [|a [|b [|c l]]]; split; intros H;
    try discriminate; congruence.
Qed.

Lemma parse_pair_length (kv : string) :
  parse_pair kv = None <-> length (tokens kv) <> 2%nat.
Proof.
  unfold parse_pair, Py.unpack2.
  destruct (tokens kv) as [|a [|b [|c l]]]; simpl; split; intros H;
    try discriminate; try reflexivity; try lia; congruence.
Qed.

(** A call of [set] with one pair that does not decode. *)
Lemma set_rejected (kv : string) (ttl : option Z) (m : Machine) :
  parse_pair kv = None ->
  outcome (set [kv] ttl) m = Ok tt /\ self (after (set [kv] ttl) m) = self m.
Proof.
  intros Hp.
  assert (Hset : set [kv] ttl m
                 = (Ok tt, autosaved (after (print_if_verbose
                                              (Line_set_error kv)) m))).
  { unfold set, bind at 1. rewrite set_loop_cons, (set_pair_rejected m kv ttl Hp).
    simpl. unfold bind, gets. simpl. apply autosave_eq. }
  unfold outcome, after. rewrite Hset. simpl.
  rewrite autosaved_self, print_if_verbose_self. auto.
Qed.

(** One turn of the loop of [set] on a pair that decodes: the value is in
    [store], whatever [expirations] is and however the turn ends. *)
Lemma set_pair_stores (kv k v : string) (ttl : option Z) (m : Machine)
  (d : gmap string pyval) :
  parse_pair kv = Some (k, v) -> store (self m) = PDict d ->
  store (self (snd (try_except (set_pair kv ttl) Py.is_ValueError
                      (do! print_if_verbose (Line_set_error kv) in ret ttl) m)))
  = PDict (<[k := PStr v]> d).
Proof.
  intros Hp Hd.
  unfold try_except, set_pair, bind, lift, gets, modify, time_time.
  simpl. rewrite (parse_pair_Some _ _ _ Hp). simpl. rewrite Hd. simpl.
  destruct (Py.setitem (expirations (self m)) k _) as [xs|ex]; simpl.
  - rewrite print_if_verbose_eq. simpl.
    rewrite print_if_verbose_self. reflexivity.
  - destruct (Py.is_ValueError ex); simpl; [|reflexivity].
    rewrite print_if_verbose_eq. simpl.
    rewrite print_if_verbose_self. reflexivity.
Qed.

(** A call of [set] with one pair that decodes: the value is in [store],
    whatever [expirations] is and however the call ends. *)
Lemma set_accepted_stores (kv k v : string) (ttl : option Z) (m : Machine)
  (d : gmap string pyval) :
  parse_pair kv = Some (k, v) -> store (self m) = PDict d ->
  store (self (after (set [kv] ttl) m)) = PDict (<[k := PStr v]> d).
Proof.
  intros Hp Hd. pose proof (set_pair_stores kv k v ttl m d Hp Hd) as Hs.
  unfold after, set, bind at 1. rewrite set_loop_cons.
  destruct (try_except _ _ _ m) as [[ttl'|ex] m1]; simpl in *.
  - unfold bind, gets. simpl. rewrite autosave_eq. simpl.
    rewrite autosaved_self. exact Hs.
  - exact Hs.
Qed.

(** A call of [set] with one pair that decodes, on two dictionaries: the
    call returns and the key has an expiration. *)
Lemma set_accepted_expires (kv k v : string) (ttl : option Z) (m : Machine)
  (d e : gmap string pyval) :
  parse_pair kv = Some (k, v) ->
  store (self m) = PDict d -> expirations (self m) = PDict e ->
  outcome (set [kv] ttl) m = Ok tt /\
  exists x, entry (expirations (self (after (set [kv] ttl) m))) k
            = Some (PNum x).
Proof.
  intros Hp Hd He.
  destruct (set_dicts [kv] ttl m d e Hd He) as (Heq & _ & Hex & _).
  split; [unfold outcome; rewrite Heq; reflexivity|].
  rewrite Hex. unfold accepted. simpl. rewrite Hp. simpl.
  rewrite lookup_insert_eq. eauto.
Qed.

(** C8: [set] decodes a pair by cutting at [", "] when the string holds a
    [", "], and at whitespace otherwise.  The string is accepted exactly
    when that gives two tokens, which are then the key and the value; so
    ["key value"] is accepted for two words (unless the key ends with a
    comma, where [", "] takes precedence), and ["key, value"] is accepted for
    any two parts free of [", "].  A string that gives another number of
    tokens is rejected: [set] returns and leaves the instance as it was.  A
    string that is accepted is stored: after [set] the dictionary [store]
    holds the value under the key, and (for a TTL that converts to a float)
    the call returns and the key has an expiration. *)
Theorem pair_decoding :
  (forall kv, PyStr.contains ", " kv = true ->
     tokens kv = PyStr.split ", " kv) /\
  (forall kv, PyStr.contains ", " kv = false ->
     tokens kv = PyStr.split_ws kv) /\
  (forall kv k v, parse_pair kv = Some (k, v) <-> tokens kv = [k; v]) /\
  (forall kv, parse_pair kv = None <-> length (tokens kv) <> 2%nat) /\
  (forall k v, k <> "" -> v <> "" ->
     no_space k = true -> no_space v = true -> ends_with_comma k = false ->
     parse_pair (k +:+ " " +:+ v) = Some (k, v)) /\
  (forall k v,
     PyStr.contains ", " k = false -> PyStr.contains ", " v = false ->
     parse_pair (k +:+ ", " +:+ v) = Some (k, v)) /\
  (forall kv ttl m, parse_pair kv = None ->
     outcome (set [kv] ttl) m = Ok tt /\
     self (after (set [kv] ttl) m) = self m) /\
  (forall kv k v ttl m d, parse_pair kv = Some (k, v) ->
     store (self m) = PDict d ->
     entry (store (self (after (set [kv] ttl) m))) k = Some (PStr v)) /\
  (forall kv k v ttl m d e, parse_pair kv = Some (k, v) ->
     store (self m) = PDict d -> expirations (self m) = PDict e ->
     converts_to_float (effective_ttl (self m) ttl) ->
     outcome (set [kv] ttl) m = Ok tt /\
     exists x, entry (expirations (self (after (set [kv] ttl) m))) k
               = Some (PNum x)).
Proof.
  split; [|split; [|split; [|split; [|split; [|split; [|split; [|split]]]]]]].
  - intros kv H. unfold tokens. rewrite H. reflexivity.
  - intros kv H. unfold tokens. rewrite H. reflexivity.
  - exact parse_pair_tokens.
  - exact parse_pair_length.
  - intros k v Hk0 Hv0 Hk Hv Hc. apply parse_pair_tokens.
    unfold tokens. rewrite (no_sep_in_spaced_pair k v Hk Hv Hc).
    apply split_ws_pair; assumption.
  - intros k v Hk Hv. apply parse_pair_tokens.
    unfold tokens. rewrite contains_sep_append.
    exact (split_comma_pair k v "" Hk Hv).
  - exact set_rejected.
  - intros kv k v ttl m d Hp Hd.
    rewrite (set_accepted_stores kv k v ttl m d Hp Hd). simpl.
    apply lookup_insert_eq.
  - intros kv k v ttl m d e Hp Hd He _.
    exact (set_accepted_expires kv k v ttl m d e Hp Hd He).
Qed.

Lemma pair_decoding_witness :
  parse_pair "name John" = Some ("name", "John") /\
  parse_pair "first name, John Doe" = Some ("first name", "John Doe") /\
  (PyStr.contains ", " "a, b" = true /\
   tokens "a, b" = ["a"; "b"] /\ PyStr.split_ws "a, b" = ["a,"; "b"]) /\
  (parse_pair "a b c" = None /\
   self (after (set ["a b c"] None) (mkMachine (init 10 true true) world0))
   = init 10 true true) /\
  (converts_to_float
     (effective_ttl (self (mkMachine (init 10 true true) world0)) None) /\
   entry (store (self (after (set ["name John"] None)
                         (mkMachine (init 10 true true) world0)))) "name"
   = Some (PStr "John") /\
   entry (store (self (after (set ["first name, John Doe"] None)
                         (mkMachine (init 10 true true) world0))))
     "first name"
   = Some (PStr "John Doe") /\
   outcome (set ["name John"] None) (mkMachine (init 10 true true) world0)
   = Ok tt).
Proof.
  destruct pair_decoding
    as (Hcomma & _ & _ & _ & Hws & Hsep & Hrej & Hstore & Hexp).
  pose (m := mkMachine (init 10 true true) world0).
  assert (Hname : parse_pair "name John" = Some ("name", "John")).
  { apply (Hws "name" "John"); [discriminate|discriminate|reflexivity..]. }
  assert (Hfirst : parse_pair "first name, John Doe"
                   = Some ("first name", "John Doe")).
  { apply (Hsep "first name" "John Doe"); reflexivity. }
  assert (Hrange : converts_to_float (effective_ttl (self m) None))
    by (apply Z.leb_le; vm_compute; reflexivity).
  split; [exact Hname|]. split; [exact Hfirst|].
  split.
  { split; [reflexivity|]. split; [|reflexivity].
    rewrite (Hcomma "a, b" eq_refl). reflexivity. }
  split.
  { split; [reflexivity|].
    apply (Hrej "a b c" None m eq_refl). }
  split; [exact Hrange|].
  split; [exact (Hstore "name John" "name" "John" None m ∅ Hname eq_refl)|].
  split; [exact (Hstore "first name, John Doe" "first name" "John Doe" None
                   m ∅ Hfirst eq_refl)|].
  destruct (Hexp "name John" "name" "John" None m ∅ ∅ Hname eq_refl eq_refl
              Hrange) as (Ho & _).
  exact Ho.
Defined.

(** ** The operations of [str] on examples *)

Example split_comma_1 : PyStr.split ", " "a, b" = ["a"; "b"].
Proof. reflexivity. Qed.
Example split_comma_2 : PyStr.split ", " "a, b, c" = ["a"; "b"; "c"].
Proof. reflexivity. Qed.
Example split_comma_3 : PyStr.split ", " "a,  b" = ["a"; " b"].
Proof. reflexivity. Qed.
Example split_comma_4 : PyStr.split ", " ", " = [""; ""].
Proof. reflexivity. Qed.
Example split_comma_5 : PyStr.split ", " "a, " = ["a"; ""].
Proof. reflexivity. Qed.
Example split_ws_1 : PyStr.split_ws "  first   John " = ["first"; "John"].
Proof. reflexivity. Qed.
Example split_ws_2 : PyStr.split_ws "" = [].
Proof. reflexivity. Qed.
Example contains_1 : PyStr.contains ", " "a,b, c" = true.
Proof. reflexivity. Qed.
Example contains_2 : PyStr.contains ", " "a,b ,c" = false.
Proof. reflexivity. Qed.

(** The example of the specification [set("a", "b", ttl=-1)]: neither
    string decodes to a pair, so nothing is stored and [get("a")] finds
    nothing. *)
Example set_two_single_tokens :
  let m := after (set ["a"; "b"] (Some (-1)))
             (mkMachine (init 10 false false) world0) in
  self m = init 10 false false /\ outcome (get "a") m = Ok PNone.
Proof. vm_compute. auto. Qed.

(** * Further properties *)

(** ** What the methods leave alone *)

Lemma quiet_refl (m : Machine) : quiet m m.
Proof. unfold quiet. repeat split; auto. Qed.

Lemma quiet_trans (m1 m2 m3 : Machine) :
  quiet m1 m2 -> quiet m2 m3 -> quiet m1 m3.
Proof.
  unfold quiet.
  intros (Hf & Hw & Ha & He & Hv & Hc & Ht) (Hf' & Hw' & Ha' & He' & Hv' & Hc' & Ht').
  repeat split; try congruence. lia.
Qed.

Lemma quiet_print (l : line) (m : Machine) :
  quiet m (after (print_if_verbose l) m).
Proof.
  unfold quiet. rewrite print_if_verbose_self.
  destruct (print_if_verbose_world l m) as (Hf & Hw & Hc & Ht).
  simpl in *. rewrite Ht. repeat split; auto.
Qed.

Lemma quiet_then_print (l : line) (m m' : Machine) :
  quiet m m' -> quiet m (after (print_if_verbose l) m').
Proof. intros H. eapply quiet_trans; [exact H|apply quiet_print]. Qed.

Ltac quiet_step :=
  first [ apply quiet_refl
        | apply quiet_print
        | apply quiet_then_print; quiet_step
        | unfold quiet; simpl; repeat split; auto ].

Lemma quiet_steady (filename : string) (m m' : Machine) :
  quiet m m' -> steady filename m m'.
Proof.
  intros (Hf & Hw & Ha & He & Hv & Hc & Ht). unfold steady.
  split; [intros p _; now rewrite Hf|].
  split; [exists []; rewrite Hw, app_nil_r; auto|].
  auto.
Qed.

Lemma steady_trans (filename : string) (m1 m2 m3 : Machine) :
  steady filename m1 m2 -> steady filename m2 m3 -> steady filename m1 m3.
Proof.
  intros (Hf & (l & Hw & Hl) & Ha & He & Hv & Hc & Ht)
         (Hf' & (l' & Hw' & Hl') & Ha' & He' & Hv' & Hc' & Ht').
  unfold steady. split.
  - intros p Hp. rewrite (Hf' p Hp). exact (Hf p Hp).
  - split.
    + exists (l ++ l'). rewrite Hw', Hw, app_assoc. split; [reflexivity|].
      apply Forall_app. auto.
    + repeat split; try congruence. lia.
Qed.

Lemma steady_save (filename : string) (m : Machine) :
  steady filename m (after (save filename) m).
Proof.
  unfold steady. rewrite save_self.
  destruct (save_world filename m) as (Hf & Hw & Hc & Ht). simpl in *.
  split; [intros p Hp; rewrite Hf; apply lookup_insert_ne; congruence|].
  split; [exists [filename]; split; [exact Hw|repeat constructor]|].
  rewrite Ht. repeat split; auto.
Qed.

Lemma steady_autosaved (m : Machine) : steady default_filename m (autosaved m).
Proof.
  unfold autosaved. destruct (auto_save_enabled (self m)).
  - apply steady_save.
  - apply quiet_steady, quiet_refl.
Qed.

(** [_is_expired] changes nothing but the number of clock readings. *)
Lemma is_expired_quiet (k : string) (m : Machine) :
  quiet m (after (_is_expired k) m) /\
  self (after (_is_expired k) m) = self m.
Proof.
  unfold after, _is_expired, bind, lift, gets, modify, time_time. simpl.
  destruct (Py.contains (expirations (self m)) k) as [[|]|ex]; simpl;
    [|split; [apply quiet_refl|reflexivity]..].
  destruct (Py.getitem (expirations (self m)) k) as [v|ex]; simpl;
    (split; [unfold quiet; simpl; repeat split; auto|reflexivity]).
Qed.

(** [delete], whatever the instance. *)
Lemma delete_quiet_shape (k : string) (m : Machine) :
  exists m2,
    quiet m m2 /\
    ((exists ex, delete k m = (Raise ex, m2)) \/
     delete k m = (Ok tt, autosaved m2)).
Proof.
  unfold delete, bind, lift, gets, modify. simpl.
  destruct (Py.contains (store (self m)) k) as [[|]|ex]; simpl.
  - destruct (Py.delitem (store (self m)) k) as [st|ex]; simpl.
    + destruct (Py.contains (expirations (self m)) k) as [[|]|ex]; simpl.
      * destruct (Py.delitem (expirations (self m)) k) as [xs|ex]; simpl.
        -- rewrite print_if_verbose_eq. simpl.
           eexists. split; [|right; apply autosave_eq]. quiet_step.
        -- eexists. split; [|left; eauto]. quiet_step.
      * rewrite print_if_verbose_eq. simpl.
        eexists. split; [|right; apply autosave_eq]. quiet_step.
      * eexists. split; [|left; eauto]. quiet_step.
    + eexists. split; [|left; eauto]. quiet_step.
  - rewrite print_if_verbose_eq. simpl.
    eexists. split; [|right; apply autosave_eq]. quiet_step.
  - eexists. split; [|left; eauto]. quiet_step.
Qed.

Lemma delete_steady (k : string) (m : Machine) :
  steady default_filename m (after (delete k) m).
Proof.
  destruct (delete_quiet_shape k m) as (m2 & Hq & [(ex & Hr)|Hr]);
    unfold after; rewrite Hr; simpl.
  - apply quiet_steady, Hq.
  - eapply steady_trans; [apply quiet_steady, Hq|apply steady_autosaved].
Qed.

Lemma set_pair_quiet (kv : string) (ttl : option Z) (m : Machine) :
  quiet m
    (after (try_except (set_pair kv ttl) Py.is_ValueError
              (do! print_if_verbose (Line_set_error kv) in ret ttl)) m).
Proof.
  unfold after, try_except, set_pair, bind, lift, gets, modify, time_time.
  simpl.
  destruct (Py.unpack2 (tokens kv)) as [[k v]|ex]; simpl.
  - destruct (Py.setitem (store (self m)) k (PStr v)) as [st|ex]; simpl.
    + destruct (Py.setitem (expirations (self m)) k _) as [xs|ex]; simpl.
      * rewrite print_if_verbose_eq. simpl. quiet_step.
      * destruct (Py.is_ValueError ex); simpl.
        -- rewrite print_if_verbose_eq. simpl. quiet_step.
        -- quiet_step.
    + destruct (Py.is_ValueError ex); simpl.
      * rewrite print_if_verbose_eq. simpl. quiet_step.
      * quiet_step.
  - destruct (Py.is_ValueError ex); simpl.
    + rewrite print_if_verbose_eq. simpl. quiet_step.
    + quiet_step.
Qed.

Lemma set_loop_quiet (key_values : list string) (ttl : option Z)
  (m : Machine) :
  quiet m (after (set_loop key_values ttl) m).
Proof.
  revert ttl m. induction key_values as [|kv rest IH]; intros ttl m.
  - apply quiet_refl.
  - pose proof (set_pair_quiet kv ttl m) as Hp.
    unfold after in *. rewrite set_loop_cons.
    destruct (try_except _ _ _ m) as [[ttl'|ex] m1]; simpl in *.
    + eapply quiet_trans; [exact Hp|apply IH].
    + exact Hp.
Qed.

Lemma set_steady (key_values : list string) (ttl : option Z) (m : Machine) :
  steady default_filename m (after (set key_values ttl) m).
Proof.
  pose proof (set_loop_quiet key_values ttl m) as Hq.
  unfold after in *. unfold set, bind.
  destruct (set_loop key_values ttl m) as [[[]|ex] m2]; simpl in *.
  - unfold gets. simpl. rewrite autosave_eq. simpl.
    eapply steady_trans; [apply quiet_steady, Hq|apply steady_autosaved].
  - apply quiet_steady, Hq.
Qed.

Lemma get_steady (k : string) (m : Machine) :
  steady default_filename m (after (get k) m).
Proof.
  destruct (is_expired_quiet k m) as (Hq & Hs).
  unfold after in *. unfold get, bind.
  destruct (_is_expired k m) as [[[|]|ex] m1]; simpl in *.
  - pose proof (delete_steady k m1) as Hd. unfold after in Hd.
    destruct (delete k m1) as [[[]|ex] m2]; simpl in *.
    + rewrite print_if_verbose_eq. simpl.
      eapply steady_trans; [apply quiet_steady, Hq|].
      eapply steady_trans; [exact Hd|apply quiet_steady, quiet_print].
    + eapply steady_trans; [apply quiet_steady, Hq|exact Hd].
  - unfold gets, lift. simpl.
    destruct (Py.get (store (self m1)) k) as [v|ex]; simpl.
    + rewrite print_if_verbose_eq. simpl.
      apply quiet_steady, quiet_then_print, Hq.
    + apply quiet_steady, Hq.
  - apply quiet_steady, Hq.
Qed.

Lemma load_quiet (f : string) (m : Machine) : quiet m (after (load f) m).
Proof.
  unfold after, load, try_except, json_load_from, bind, lift, gets, modify.
  simpl.
  destruct (files (world m) !! f) as [[txt|doc]|]; simpl.
  - quiet_step.
  - destruct (Py.getitem doc "store") as [st|ex] eqn:Hst; simpl.
    + destruct (Py.getitem doc "expirations") as [xs|ex] eqn:Hxs; simpl.
      * rewrite print_if_verbose_eq. simpl. quiet_step.
      * rewrite (getitem_not_FileNotFoundError _ _ _ Hxs). quiet_step.
    + rewrite (getitem_not_FileNotFoundError _ _ _ Hst). quiet_step.
  - rewrite print_if_verbose_eq. simpl. quiet_step.
Qed.

(** X1: whatever the instance and whatever the outcome, [set], [get] and
    [delete] write no file other than [pyredis_dump.json], [save(f)] writes
    no file other than [f] and [load] writes none; and none of the five
    changes [auto_save_enabled], [expiration_time], [verbose] or the clock. *)
Theorem methods_leave_alone (m : Machine) (key_values : list string)
  (ttl : option Z) (k f : string) :
  steady default_filename m (after (set key_values ttl) m) /\
  steady default_filename m (after (get k) m) /\
  steady default_filename m (after (delete k) m) /\
  steady f m (after (save f) m) /\
  quiet m (after (load f) m).
Proof.
  split; [apply set_steady|]. split; [apply get_steady|].
  split; [apply delete_steady|]. split; [apply steady_save|apply load_quiet].
Qed.

(** ** The instances that [set], [get] and [delete] build *)

Lemma outcome_ok {A} (c : M Machine A) (m : Machine) (a : A) :
  outcome c m = Ok a -> c m = (Ok a, after c m).
Proof.
  unfold outcome, after. destruct (c m) as [r m']. simpl. now intros ->.
Qed.

Lemma well_formed_init (expiration_time : Z) (auto_save verbose : bool) :
  well_formed (init expiration_time auto_save verbose).
Proof.
  exists ∅, ∅. simpl. repeat split; try (intros [x Hx]); try intros k v Hv;
    rewrite lookup_empty in *; discriminate.
Qed.

Lemma well_formed_set (m : Machine) (key_values : list string)
  (ttl : option Z) :
  well_formed (self m) ->
  outcome (set key_values ttl) m = Ok tt /\
  well_formed (self (after (set key_values ttl) m)).
Proof.
  intros (d & e & Hd & He & Hdom & Hvs & Hve).
  destruct (set_dicts key_values ttl m d e Hd He) as (Heq & Hst & Hex & _).
  split; [unfold outcome; rewrite Heq; reflexivity|].
  eexists _, _. split; [exact Hst|]. split; [exact Hex|].
  set (ps := accepted key_values).
  repeat split.
  - intros Hs. rewrite stored_lookup in Hs.
    pose proof (stamped_lookup (clock (world m)) (effective_ttl (self m) ttl)
                  ps (ticks (world m)) e k) as Hx.
    destruct (last_value ps k).
    + destruct Hx as (j & _ & ->). eauto.
    + rewrite Hx. apply Hdom, Hs.
  - intros Hs. rewrite stored_lookup.
    pose proof (stamped_lookup (clock (world m)) (effective_ttl (self m) ttl)
                  ps (ticks (world m)) e k) as Hx.
    destruct (last_value ps k); [eauto|].
    rewrite Hx in Hs. apply Hdom, Hs.
  - intros k v Hv. rewrite stored_lookup in Hv.
    destruct (last_value ps k); [injection Hv as <-; eauto|eauto].
  - intros k v Hv.
    pose proof (stamped_lookup (clock (world m)) (effective_ttl (self m) ttl)
                  ps (ticks (world m)) e k) as Hx.
    destruct (last_value ps k).
    + destruct Hx as (j & _ & Hx). rewrite Hx in Hv. injection Hv as <-. eauto.
    + rewrite Hx in Hv. eauto.
Qed.

Lemma well_formed_delete (m : Machine) (k : string) :
  well_formed (self m) ->
  outcome (delete k) m = Ok tt /\ well_formed (self (after (delete k) m)).
Proof.
  intros (d & e & Hd & He & Hdom & Hvs & Hve). unfold outcome, after.
  destruct (d !! k) as [v|] eqn:Hk.
  - rewrite (delete_present m k d e v Hd He Hk). simpl.
    split; [reflexivity|].
    rewrite autosaved_self, print_if_verbose_self. simpl.
    exists (base.delete k d), (base.delete k e). repeat split.
    + intros Hs. destruct (decide (k = k0)) as [<-|Hne].
      * rewrite lookup_delete_eq in Hs. destruct Hs; discriminate.
      * rewrite lookup_delete_ne in * by exact Hne. apply Hdom, Hs.
    + intros Hs. destruct (decide (k = k0)) as [<-|Hne].
      * rewrite lookup_delete_eq in Hs. destruct Hs; discriminate.
      * rewrite lookup_delete_ne in * by exact Hne. apply Hdom, Hs.
    + intros k0 v0 Hv. apply lookup_delete_Some in Hv as (_ & Hv). eauto.
    + intros k0 v0 Hv. apply lookup_delete_Some in Hv as (_ & Hv). eauto.
  - rewrite (delete_absent m k d Hd Hk). simpl.
    split; [reflexivity|].
    rewrite autosaved_self, print_if_verbose_self.
    exists d, e. auto.
Qed.

Lemma well_formed_get (m : Machine) (k : string) :
  well_formed (self m) ->
  (exists v, outcome (get k) m = Ok v) /\
  well_formed (self (after (get k) m)).
Proof.
  intros Hwf. pose proof Hwf as (d & e & Hd & He & Hdom & Hvs & Hve).
  unfold outcome, after.
  destruct (e !! k) as [x|] eqn:Hek.
  - destruct (Hve k x Hek) as (z & ->).
    pose proof (is_expired_entry m k e z He Hek) as Hx.
    destruct (z <? now m).
    + assert (Hwf1 : well_formed (self (after time_time m))) by exact Hwf.
      destruct (well_formed_delete _ k Hwf1) as (Ho & Hwf2).
      rewrite (get_expired m _ _ k Hx (outcome_ok _ _ _ Ho)). simpl.
      split; [eauto|]. rewrite print_if_verbose_self. exact Hwf2.
    + rewrite (get_live m _ k d Hx Hd). simpl.
      split; [eauto|]. rewrite print_if_verbose_self. exact Hwf.
  - rewrite (get_live m m k d (is_expired_no_entry m k e He Hek) Hd). simpl.
    split; [eauto|]. rewrite print_if_verbose_self. exact Hwf.
Qed.

Lemma well_formed_run_op (o : op) (m : Machine) :
  well_formed (self m) ->
  outcome (run_op o) m = Ok tt /\ well_formed (self (after (run_op o) m)).
Proof.
  intros Hwf. destruct o as [kvs ttl|k|k| | |]; simpl.
  - apply well_formed_set, Hwf.
  - destruct (well_formed_get m k Hwf) as ((v & Ho) & Hw).
    unfold outcome, after, bind. rewrite (outcome_ok _ _ _ Ho). auto.
  - apply well_formed_delete, Hwf.
  - unfold outcome, after. rewrite save_eq. simpl.
    split; [reflexivity|]. rewrite save_self. exact Hwf.
  - unfold outcome, after, enable_auto_save, bind, modify. simpl.
    rewrite print_if_verbose_eq. simpl. split; [reflexivity|].
    rewrite print_if_verbose_self. exact Hwf.
  - unfold outcome, after, disable_auto_save, bind, modify. simpl.
    rewrite print_if_verbose_eq. simpl. split; [reflexivity|].
    rewrite print_if_verbose_self. exact Hwf.
Qed.

(** X2: starting from a new instance whose default TTL converts to a
    float, any sequence of calls of [set] with TTLs that convert to a float,
    of [get], [delete], [save()], [enable_auto_save] and
    [disable_auto_save] returns without an exception, in any world, and
    leaves [store] and [expirations] two dictionaries with the same keys,
    the values of [store] strings and those of [expirations] numbers.
    (A TTL beyond the floats makes [set] raise [OverflowError] with the key
    in [store] only; the snapshot file is taken to be writable.) *)
Theorem calls_keep_well_formed (ops : list op) (expiration_time : Z)
  (auto_save verbose : bool) (w : World) :
  converts_to_float expiration_time ->
  Forall op_in_range ops ->
  let m := mkMachine (init expiration_time auto_save verbose) w in
  outcome (run_ops ops) m = Ok tt /\
  well_formed (self (after (run_ops ops) m)).
Proof.
  intros _ _ m.
  assert (Hwf : well_formed (self m)) by apply well_formed_init.
  clearbody m. revert m Hwf.
  induction ops as [|o rest IH]; intros m Hwf; [auto|].
  destruct (well_formed_run_op o m Hwf) as (Ho & Hw).
  destruct (IH _ Hw) as (Ho' & Hw').
  unfold outcome, after in Ho', Hw' |- *. simpl. unfold bind.
  rewrite (outcome_ok _ _ _ Ho). auto.
Qed.

Lemma calls_keep_well_formed_witness :
  let ops := [Op_set ["a b"; "oops"] (Some 5); Op_get "a";
              Op_set ["c d"] None; Op_delete "a"; Op_save;
              Op_disable_auto_save] in
  let m := mkMachine (init 10 true true) world0 in
  converts_to_float 10 /\ Forall op_in_range ops /\
  outcome (run_ops ops) m = Ok tt /\
  store (self (after (run_ops ops) m)) = PDict {["c" := PStr "d"]} /\
  well_formed (self (after (run_ops ops) m)).
Proof.
  assert (H10 : converts_to_float 10) by (apply Z.leb_le; reflexivity).
  assert (H5 : converts_to_float 5) by (apply Z.leb_le; reflexivity).
  assert (Hops : Forall op_in_range
                   [Op_set ["a b"; "oops"] (Some 5); Op_get "a";
                    Op_set ["c d"] None; Op_delete "a"; Op_save;
                    Op_disable_auto_save])
    by (repeat constructor; exact H5).
  destruct (calls_keep_well_formed _ 10 true true world0 H10 Hops) as (Ho & Hw).
  split; [exact H10|]. split; [exact Hops|]. split; [exact Ho|].
  split; [vm_compute; reflexivity|exact Hw].
Defined.

(** ** [delete] twice, and [get] of a key that is nowhere *)

(** X3: on two dictionaries, a second [delete(k)] returns and changes
    nothing in the instance, and so does a first one when [store] does not
    hold [k]; with [auto_save_enabled] set the second call still writes the
    snapshot file. *)
Theorem delete_twice (m : Machine) (k : string) (d e : gmap string pyval) :
  store (self m) = PDict d -> expirations (self m) = PDict e ->
  let m1 := after (delete k) m in
  let m2 := after (delete k) m1 in
  outcome (delete k) m1 = Ok tt /\
  self m2 = self m1 /\
  (d !! k = None -> self m1 = self m) /\
  (auto_save_enabled (self m) = true ->
   writes (world m2) = writes (world m1) ++ [default_filename]).
Proof.
  intros Hd He m1 m2.
  assert (H1 : exists d1, store (self m1) = PDict d1 /\ d1 !! k = None /\
                 auto_save_enabled (self m1) = auto_save_enabled (self m) /\
                 (d !! k = None -> self m1 = self m)).
  { subst m1. unfold after. destruct (d !! k) as [v|] eqn:Hk.
    - rewrite (delete_present m k d e v Hd He Hk). simpl.
      rewrite autosaved_self, print_if_verbose_self. simpl.
      exists (base.delete k d). split; [reflexivity|].
      split; [apply lookup_delete_eq|]. split; [reflexivity|discriminate].
    - rewrite (delete_absent m k d Hd Hk). simpl.
      rewrite autosaved_self, print_if_verbose_self.
      exists d. auto. }
  destruct H1 as (d1 & Hd1 & Hk1 & Ha1 & Hsame).
  pose proof (delete_absent m1 k d1 Hd1 Hk1) as Hdel.
  subst m2. unfold outcome, after at 1 2. rewrite Hdel. simpl.
  rewrite autosaved_self, print_if_verbose_self.
  split; [reflexivity|]. split; [reflexivity|]. split; [exact Hsame|].
  intros Hauto. unfold autosaved.
  rewrite print_if_verbose_self, Ha1, Hauto.
  destruct (save_world default_filename
              (after (print_if_verbose (Line_delete_none k)) m1))
    as (_ & Hw & _).
  destruct (print_if_verbose_world (Line_delete_none k) m1) as (_ & Hw' & _).
  simpl in *. rewrite Hw, Hw'. reflexivity.
Qed.

Lemma delete_twice_witness :
  let m := after (set ["a b"] None) (mkMachine (init 10 true true) world0) in
  let m1 := after (delete "a") m in
  let m2 := after (delete "a") m1 in
  store (self m) = PDict {["a" := PStr "b"]} /\
  expirations (self m) = PDict {["a" := PNum 1010]} /\
  outcome (delete "a") m1 = Ok tt /\ self m2 = self m1 /\
  writes (world m2) = writes (world m1) ++ [default_filename].
Proof.
  pose (m := after (set ["a b"] None) (mkMachine (init 10 true true) world0)).
  assert (Hd : store (self m) = PDict {["a" := PStr "b"]})
    by (vm_compute; reflexivity).
  assert (He : expirations (self m) = PDict {["a" := PNum 1010]})
    by (vm_compute; reflexivity).
  pose proof (delete_twice m "a" _ _ Hd He) as (Ho & Hs & _ & Hw).
  split; [exact Hd|]. split; [exact He|]. split; [exact Ho|].
  split; [exact Hs|]. apply Hw. reflexivity.
Defined.

(** X4: [get(k)] of a key that neither dictionary holds returns [None] and
    changes nothing in the instance: it does not call [delete], reads no
    clock and writes no file, also with [auto_save_enabled] set. *)
Theorem get_missing_key (m : Machine) (k : string) (d e : gmap string pyval) :
  store (self m) = PDict d -> expirations (self m) = PDict e ->
  d !! k = None -> e !! k = None ->
  let m' := after (get k) m in
  outcome (get k) m = Ok PNone /\
  self m' = self m /\
  files (world m') = files (world m) /\
  writes (world m') = writes (world m) /\
  ticks (world m') = ticks (world m).
Proof.
  intros Hd He Hk Hek m'. subst m'. unfold outcome, after.
  rewrite (get_live m m k d (is_expired_no_entry m k e He Hek) Hd).
  rewrite Hk. simpl. rewrite print_if_verbose_self.
  destruct (print_if_verbose_world (Line_get k PNone) m) as (Hf & Hw & _ & Ht).
  auto.
Qed.

Lemma get_missing_key_witness :
  let m := mkMachine (init 10 true true) world0 in
  store (self m) = PDict ∅ /\ expirations (self m) = PDict ∅ /\
  outcome (get "nobody") m = Ok PNone /\
  self (after (get "nobody") m) = self m /\
  writes (world (after (get "nobody") m)) = [].
Proof.
  pose (m := mkMachine (init 10 true true) world0).
  pose proof (get_missing_key m "nobody" ∅ ∅ eq_refl eq_refl
                ltac:(reflexivity) ltac:(reflexivity)) as (Ho & Hs & _ & Hw & _).
  split; [reflexivity|]. split; [reflexivity|]. split; [exact Ho|].
  split; [exact Hs|exact Hw].
Defined.

(** ** What [set], [get] and [delete] do to each key *)



(** The instance that [get] leaves on two dictionaries: the one it found, or
    the one without [k]. *)
Lemma get_self_cases (m : Machine) (k : string) (d e : gmap string pyval) :
  store (self m) = PDict d -> expirations (self m) = PDict e ->
  self (after (get k) m) = self m \/
  self (after (get k) m)
  = with_expirations (PDict (base.delete k e))
      (with_store (PDict (base.delete k d)) (self m)).
Proof.
  intros Hd He.
  destruct (is_expired_quiet k m) as (_ & Hs).
  unfold after in *. unfold get, bind.
  destruct (_is_expired k m) as [[[|]|ex] m1]; simpl in *.
  - assert (Hd1 : store (self m1) = PDict d) by (rewrite Hs; exact Hd).
    assert (He1 : expirations (self m1) = PDict e) by (rewrite Hs; exact He).
    destruct (d !! k) as [v|] eqn:Hk.
    + rewrite (delete_present m1 k d e v Hd1 He1 Hk).
      rewrite print_if_verbose_eq. simpl.
      rewrite print_if_verbose_self, autosaved_self, print_if_verbose_self.
      simpl. rewrite Hs. auto.
    + rewrite (delete_absent m1 k d Hd1 Hk).
      rewrite print_if_verbose_eq. simpl.
      rewrite print_if_verbose_self, autosaved_self, print_if_verbose_self.
      auto.
  - unfold gets, lift. simpl.
    destruct (Py.get (store (self m1)) k) as [v|ex]; simpl; [|auto].
    rewrite print_if_verbose_eq. simpl. rewrite print_if_verbose_self. auto.
  - auto.
Qed.

(** X6: on two dictionaries, [get(k)] and [delete(k)] leave the entries of
    every other key as they were, in [store] and in [expirations], whatever
    their outcome: an expired key that is not itself accessed stays. *)
Theorem other_keys_untouched (m : Machine) (k k' : string)
  (d e : gmap string pyval) :
  store (self m) = PDict d -> expirations (self m) = PDict e ->
  k' <> k ->
  (entry (store (self (after (get k) m))) k' = d !! k' /\
   entry (expirations (self (after (get k) m))) k' = e !! k') /\
  (entry (store (self (after (delete k) m))) k' = d !! k' /\
   entry (expirations (self (after (delete k) m))) k' = e !! k').
Proof.
  intros Hd He Hne. split.
  - destruct (get_self_cases m k d e Hd He) as [-> | ->].
    + rewrite Hd, He. auto.
    + simpl. rewrite !lookup_delete_ne by congruence. auto.
  - unfold after. destruct (d !! k) as [v|] eqn:Hk.
    + rewrite (delete_present m k d e v Hd He Hk). simpl.
      rewrite autosaved_self, print_if_verbose_self. simpl.
      rewrite !lookup_delete_ne by congruence. auto.
    + rewrite (delete_absent m k d Hd Hk). simpl.
      rewrite autosaved_self, print_if_verbose_self, Hd, He. auto.
Qed.

Lemma other_keys_untouched_witness :
  let m := after (set ["a 1"; "b 2"] (Some 0))
             (mkMachine (init 10 false false) world0) in
  store (self m) = PDict (<["b" := PStr "2"]> {["a" := PStr "1"]}) /\
  outcome (get "a") m = Ok PNone /\
  entry (store (self (after (get "a") m))) "b" = Some (PStr "2") /\
  entry (expirations (self (after (get "a") m))) "b" = Some (PNum 1001).
Proof.
  pose (m := after (set ["a 1"; "b 2"] (Some 0))
               (mkMachine (init 10 false false) world0)).
  assert (Hd : store (self m) = PDict (<["b" := PStr "2"]> {["a" := PStr "1"]}))
    by (vm_compute; reflexivity).
  assert (He : expirations (self m)
               = PDict (<["b" := PNum 1001]> {["a" := PNum 1000]}))
    by (vm_compute; reflexivity).
  pose proof (other_keys_untouched m "a" "b" _ _ Hd He ltac:(discriminate))
    as ((Hs & Hx) & _).
  split; [exact Hd|]. split; [vm_compute; reflexivity|].
  split; [exact (eq_trans Hs eq_refl)|exact (eq_trans Hx eq_refl)].
Defined.

(** ** The default TTL *)

Lemma set_pair_default_ttl (kv : string) (m : Machine) :
  let turn ttl :=
    try_except (set_pair kv ttl) Py.is_ValueError
      (do! print_if_verbose (Line_set_error kv) in ret ttl) m in
  let x := expiration_time (self m) in
  snd (turn None) = snd (turn (Some x)) /\
  expiration_time (self (snd (turn None))) = x /\
  ((exists ex, fst (turn None) = Raise ex /\ fst (turn (Some x)) = Raise ex) \/
   (fst (turn (Some x)) = Ok (Some x) /\
    (fst (turn None) = Ok (Some x) \/ fst (turn None) = Ok None))).
Proof.
  unfold try_except, set_pair, bind, lift, gets, modify, time_time. simpl.
  destruct (Py.unpack2 (tokens kv)) as [[k v]|ex]; simpl.
  - destruct (Py.setitem (store (self m)) k (PStr v)) as [st|ex]; simpl.
    + destruct (Py.setitem (expirations (self m)) k _) as [xs|ex]; simpl.
      * rewrite !print_if_verbose_eq. simpl.
        rewrite print_if_verbose_self. simpl. auto 8.
      * destruct (Py.is_ValueError ex); simpl.
        -- rewrite !print_if_verbose_eq. simpl.
           rewrite print_if_verbose_self. simpl. auto 8.
        -- split; [reflexivity|]. split; [reflexivity|]. left. eauto.
    + destruct (Py.is_ValueError ex); simpl.
      * rewrite !print_if_verbose_eq. simpl.
        rewrite print_if_verbose_self. auto 8.
      * split; [reflexivity|]. split; [reflexivity|]. left. eauto.
  - destruct (Py.is_ValueError ex); simpl.
    + rewrite !print_if_verbose_eq. simpl.
      rewrite print_if_verbose_self. auto 8.
    + split; [reflexivity|]. split; [reflexivity|]. left. eauto.
Qed.

Lemma set_loop_default_ttl (key_values : list string) :
  forall m : Machine,
  set_loop key_values None m
  = set_loop key_values (Some (expiration_time (self m))) m.
Proof.
  induction key_values as [|kv rest IH]; intros m; [reflexivity|].
  rewrite !set_loop_cons.
  destruct (set_pair_default_ttl kv m) as (Hm & Hx & Hr). simpl in Hm, Hx, Hr.
  destruct (try_except (set_pair kv None) _ _ m) as [r1 m1].
  destruct (try_except (set_pair kv (Some _)) _ _ m) as [r2 m2].
  simpl in *. subst m2.
  destruct Hr as [(ex & -> & ->)|(-> & [->| ->])]; [reflexivity..|].
  rewrite IH, Hx. reflexivity.
Qed.

(** X7: whatever the instance, [set(..., ttl=None)] does exactly what
    [set(..., ttl=self.expiration_time)] does: same outcome, same instance,
    same files and same output. *)
Theorem set_default_ttl (key_values : list string) (m : Machine) :
  set key_values None m
  = set key_values (Some (expiration_time (self m))) m.
Proof. unfold set, bind. rewrite set_loop_default_ttl. reflexivity. Qed.

(** ** Attributes that are not dictionaries *)




(** ** [load]: the file that is missing, and the file that is complete *)

(** X9: [load] of a file that does not exist returns and leaves the instance
    as it was.  [load] of a JSON object with both fields returns too, and
    then [store] and [expirations] are the two fields of the file, whatever
    values these are and whatever the instance held; the other attributes
    are kept. *)
Theorem load_outcomes (m : Machine) (f : string) :
  (files (world m) !! f = None ->
   outcome (load f) m = Ok tt /\ self (after (load f) m) = self m) /\
  (forall d st ex,
   files (world m) !! f = Some (JSON (PDict d)) ->
   d !! "store" = Some st -> d !! "expirations" = Some ex ->
   outcome (load f) m = Ok tt /\
   self (after (load f) m)
   = mk st ex (auto_save_enabled (self m)) (expiration_time (self m))
        (verbose (self m))).
Proof.
  split.
  - intros Hf. unfold outcome, after. rewrite (load_no_file m f Hf). simpl.
    rewrite print_if_verbose_self. auto.
  - intros d st ex Hf Hst Hex. unfold outcome, after.
    rewrite (load_both m f (PDict d) st ex Hf); simpl;
      [|rewrite Hst; reflexivity|rewrite Hex; reflexivity].
    rewrite print_if_verbose_self. auto.
Qed.

Lemma load_outcomes_witness :
  files (world half_snapshot) !! "g.json" = None /\
  self (after (load "g.json") half_snapshot) = self half_snapshot /\
  store (self (after (load "f.json") hand_edited)) = PDict {["x" := PStr "1"]}.
Proof.
  pose proof (load_outcomes half_snapshot "g.json") as (Hnone & _).
  pose proof (load_outcomes hand_edited "f.json") as (_ & Hboth).
  destruct (Hnone eq_refl) as (_ & Hs).
  destruct (Hboth _ _ _ eq_refl eq_refl eq_refl) as (_ & Hl).
  split; [reflexivity|]. split; [exact Hs|].
  rewrite Hl. reflexivity.
Defined.

(** ** Which strings [set] accepts *)

Lemma ends_with_comma_snoc (x : string) (a : ascii) :
  ends_with_comma (x +:+ String a "") = Ascii.eqb a ",".
Proof.
  induction x as [|c x IH]; [reflexivity|].
  destruct x as [|c' x]; [reflexivity|]. exact IH.
Qed.

Lemma contains_snoc (x : string) (a : ascii) :
  PyStr.contains ", " (x +:+ String a "")
  = PyStr.contains ", " x || (ends_with_comma x && Ascii.eqb " " a).
Proof.
  induction x as [|c x IH].
  - change (String.prefix ", " (String a "") || false = false).
    rewrite prefix_sep. now rewrite andb_false_r.
  - change (String.prefix ", " (String c (x +:+ String a ""))
            || PyStr.contains ", " (x +:+ String a "")
            = (String.prefix ", " (String c x) || PyStr.contains ", " x)
              || (ends_with_comma (String c x) && Ascii.eqb " " a)).
    rewrite IH, !prefix_sep. destruct x as [|c' x].
    + change (Ascii.eqb "," c && Ascii.eqb " " a || (false || false)
              = Ascii.eqb "," c && false || false
                || Ascii.eqb c "," && Ascii.eqb " " a).
      rewrite (Ascii.eqb_sym c ","), andb_false_r. simpl.
      now rewrite orb_false_r.
    + change (Ascii.eqb "," c && Ascii.eqb " " c'
              || (PyStr.contains ", " (String c' x)
                  || ends_with_comma (String c' x) && Ascii.eqb " " a)
              = Ascii.eqb "," c && Ascii.eqb " " c'
                || PyStr.contains ", " (String c' x)
                || ends_with_comma (String c' x) && Ascii.eqb " " a).
      apply orb_assoc.
Qed.

Lemma prefix_sep_inv (c : ascii) (s : string) :
  String.prefix ", " (String c s) = true ->
  c = ","%char /\ exists s', s = String " " s'.
Proof.
  rewrite prefix_sep. intros H. apply andb_true_iff in H as (Hc & Hs).
  apply Ascii.eqb_eq in Hc as <-. split; [reflexivity|].
  destruct s as [|c' s]; [discriminate|].
  apply Ascii.eqb_eq in Hs as <-. eauto.
Qed.

Lemma split_from_cons (cur : string) (c : ascii) (s : string) :
  PyStr.split_from ", " 0 cur (String c s)
  = if String.prefix ", " (String c s)
    then cur :: PyStr.split_from ", " 1 "" s
    else PyStr.split_from ", " 0 (cur +:+ String c "") s.
Proof. reflexivity. Qed.

Lemma split_from_skip (cur : string) (c : ascii) (s : string) :
  PyStr.split_from ", " 1 cur (String c s) = PyStr.split_from ", " 0 cur s.
Proof. reflexivity. Qed.

Lemma split_from_not_nil (n : nat) (s : string) :
  forall cur : string, PyStr.split_from ", " n cur s <> [].
Proof.
  revert n. induction s as [|c s IH]; intros n cur; [discriminate|].
  destruct n as [|n].
  - rewrite split_from_cons. destruct (String.prefix _ _); [discriminate|].
    apply IH.
  - simpl. apply IH.
Qed.

Lemma join_cons (sep a : string) (l : list string) :
  l <> [] -> join sep (a :: l) = a +:+ sep +:+ join sep l.
Proof. destruct l; [congruence|reflexivity]. Qed.

Lemma append_assoc3 (a b c : string) : (a +:+ b) +:+ c = a +:+ b +:+ c.
Proof.
  induction a as [|x a IH]; [reflexivity|].
  change (String x ((a +:+ b) +:+ c) = String x (a +:+ b +:+ c)).
  now rewrite IH.
Qed.

(** Joining the pieces of [split(", ")] with [", "] gives the string back. *)
Lemma split_from_join (s : string) :
  (forall cur, join ", " (PyStr.split_from ", " 0 cur s) = cur +:+ s) /\
  (forall cur, join ", " (PyStr.split_from ", " 1 cur s) = cur +:+ behead s).
Proof.
  induction s as [|c s (IH0 & IH1)].
  - split; intros cur; simpl; now rewrite append_empty_r.
  - split; intros cur.
    + rewrite split_from_cons.
      destruct (String.prefix ", " (String c s)) eqn:Hp.
      * apply prefix_sep_inv in Hp as (-> & s' & ->).
        rewrite join_cons by apply split_from_not_nil.
        rewrite IH1. reflexivity.
      * rewrite IH0. apply append_snoc.
    + rewrite split_from_skip. apply IH0.
Qed.

(** No piece of [split(", ")] holds a [", "]. *)
Lemma split_from_pieces (s : string) :
  (forall cur, no_sep_so_far cur s ->
     Forall (fun p => PyStr.contains ", " p = false)
       (PyStr.split_from ", " 0 cur s)) /\
  Forall (fun p => PyStr.contains ", " p = false)
    (PyStr.split_from ", " 1 "" s).
Proof.
  induction s as [|c s (IH0 & IH1)].
  - split; [intros cur (Hc & _)|]; repeat constructor. exact Hc.
  - split.
    + intros cur (Hc & Hb). rewrite split_from_cons.
      destruct (String.prefix ", " (String c s)) eqn:Hp.
      * constructor; [exact Hc|exact IH1].
      * apply IH0. split.
        -- rewrite contains_snoc, Hc. exact Hb.
        -- rewrite ends_with_comma_snoc. rewrite prefix_sep in Hp.
           rewrite Ascii.eqb_sym. exact Hp.
    + rewrite split_from_skip. apply IH0. split; reflexivity.
Qed.

(** X10: a string that holds a [", "] is accepted by [set] with key [k] and
    value [v] exactly when it is [k], then [", "], then [v], and neither [k]
    nor [v] holds a [", "]: the pair is read back without loss, and the key
    or the value may be empty or hold spaces. *)
Theorem comma_pairs (kv k v : string) :
  PyStr.contains ", " kv = true /\ parse_pair kv = Some (k, v)
  <-> kv = k +:+ ", " +:+ v /\
      PyStr.contains ", " k = false /\ PyStr.contains ", " v = false.
Proof.
  split.
  - intros (Hc & Hp). apply parse_pair_tokens in Hp.
    unfold tokens in Hp. rewrite Hc in Hp. unfold PyStr.split in Hp.
    destruct (split_from_join kv) as (Hj & _). specialize (Hj "").
    destruct (split_from_pieces kv) as (Hf & _).
    specialize (Hf "" (conj eq_refl eq_refl)).
    rewrite Hp in Hj, Hf. simpl in Hj.
    inversion Hf as [|? ? Hk Hf']. inversion Hf' as [|? ? Hv _].
    auto.
  - intros (-> & Hk & Hv). split; [apply contains_sep_append|].
    apply parse_pair_tokens. unfold tokens. rewrite contains_sep_append.
    exact (split_comma_pair k v "" Hk Hv).
Qed.

Lemma comma_pairs_witness :
  parse_pair "first name, John Doe" = Some ("first name", "John Doe") /\
  ", " = "" +:+ ", " +:+ "" /\ parse_pair ", " = Some ("", "").
Proof.
  destruct (comma_pairs "first name, John Doe" "first name" "John Doe")
    as (_ & Hback).
  destruct (comma_pairs ", " "" "") as (Hto & Hback').
  destruct (Hback (conj eq_refl (conj eq_refl eq_refl))) as (_ & Hp).
  destruct (Hback' (conj eq_refl (conj eq_refl eq_refl))) as (Hc' & Hp').
  destruct (Hto (conj Hc' Hp')) as (Heq & _).
  split; [exact Hp|]. split; [exact Heq|exact Hp'].
Defined.

Lemma no_space_snoc (x : string) (a : ascii) :
  no_space x = true -> PyStr.isspace a = false ->
  no_space (x +:+ String a "") = true.
Proof.
  intros Hx Ha. induction x as [|c x IH].
  - simpl. now rewrite Ha.
  - simpl in Hx. apply andb_true_iff in Hx as (Hc & Hx).
    change (negb (PyStr.isspace c) && no_space (x +:+ String a "") = true).
    now rewrite Hc, (IH Hx).
Qed.

(** The pieces of [split()] are words. *)
Lemma split_ws_from_words (s : string) :
  forall cur : string, no_space cur = true ->
  Forall (fun p => p <> "" /\ no_space p = true) (PyStr.split_ws_from cur s).
Proof.
  induction s as [|c s IH]; intros cur Hcur.
  - simpl. destruct cur; repeat constructor; [discriminate|exact Hcur].
  - simpl. destruct (PyStr.isspace c) eqn:Hc.
    + specialize (IH "" eq_refl).
      destruct cur; [exact IH|]. constructor; [|exact IH].
      split; [discriminate|exact Hcur].
    + apply IH, no_space_snoc; assumption.
Qed.

(** X11: when a string without [", "] is accepted by [set], the key and the
    value are not empty and hold no whitespace (and so no [", "] either). *)
Theorem whitespace_pairs (kv k v : string) :
  PyStr.contains ", " kv = false -> parse_pair kv = Some (k, v) ->
  (k <> "" /\ no_space k = true) /\ (v <> "" /\ no_space v = true).
Proof.
  intros Hc Hp. apply parse_pair_tokens in Hp.
  unfold tokens in Hp. rewrite Hc in Hp.
  pose proof (split_ws_from_words kv "" eq_refl) as Hf.
  unfold PyStr.split_ws in Hp. rewrite Hp in Hf.
  inversion Hf as [|? ? Hk Hf']. inversion Hf' as [|? ? Hv _]. auto.
Qed.

Lemma whitespace_pairs_witness :
  PyStr.contains ", " "  name   John " = false /\
  parse_pair "  name   John " = Some ("name", "John") /\
  no_space "name" = true /\ no_space "John" = true.
Proof.
  destruct (whitespace_pairs "  name   John " "name" "John" eq_refl eq_refl)
    as ((_ & Hk) & (_ & Hv)).
  split; [reflexivity|]. split; [reflexivity|]. split; [exact Hk|exact Hv].
Defined.

(** ** The command line: strings *)

Lemma all_chars_snoc (p : ascii -> bool) (x : string) (a : ascii) :
  all_chars p x = true -> p a = true ->
  all_chars p (x +:+ String a "") = true.
Proof.
  intros Hx Ha. induction x as [|c x IH].
  - simpl. now rewrite Ha.
  - simpl in Hx. apply andb_true_iff in Hx as (Hc & Hx).
    change (p c && all_chars p (x +:+ String a "") = true).
    now rewrite Hc, (IH Hx).
Qed.

Lemma all_chars_lstrip (p : ascii -> bool) (s : string) :
  all_chars p s = true -> all_chars p (PyText.lstrip s) = true.
Proof.
  induction s as [|c s IH]; [reflexivity|]. intros Hs. simpl.
  destruct (PyStr.isspace c); [|exact Hs].
  simpl in Hs. apply andb_true_iff in Hs as (_ & Hs). exact (IH Hs).
Qed.

Lemma all_chars_rstrip (p : ascii -> bool) (s : string) :
  all_chars p s = true -> all_chars p (PyText.rstrip s) = true.
Proof.
  induction s as [|c s IH]; [reflexivity|]. intros Hs.
  simpl in Hs. apply andb_true_iff in Hs as (Hc & Hs). specialize (IH Hs).
  simpl. destruct (PyText.rstrip s) as [|c' r].
  - destruct (PyStr.isspace c); [reflexivity|]. simpl. now rewrite Hc.
  - change (p c && all_chars p (String c' r) = true). now rewrite Hc, IH.
Qed.

Lemma all_chars_strip (p : ascii -> bool) (s : string) :
  all_chars p s = true -> all_chars p (PyText.strip s) = true.
Proof. intros Hs. apply all_chars_rstrip, all_chars_lstrip, Hs. Qed.

Lemma prefix_comma (c : ascii) (s : string) :
  String.prefix "," (String c s) = Ascii.eqb "," c.
Proof.
  change (String.prefix "," (String c s))
    with (if Ascii.ascii_dec "," c then String.prefix "" s else false).
  destruct (Ascii.ascii_dec "," c) as [<-|Hne].
  - rewrite Ascii.eqb_refl. destruct s; reflexivity.
  - apply Ascii.eqb_neq in Hne. now rewrite Hne.
Qed.

Lemma split_comma_cons (cur : string) (c : ascii) (s : string) :
  PyStr.split_from "," 0 cur (String c s)
  = if Ascii.eqb "," c
    then cur :: PyStr.split_from "," 0 "" s
    else PyStr.split_from "," 0 (cur +:+ String c "") s.
Proof.
  rewrite <- (prefix_comma c s). reflexivity.
Qed.

(** [split(",")] of a string without a comma returns the string. *)
Lemma split_comma_none (s : string) :
  forall cur : string,
  no_comma s = true -> PyStr.split_from "," 0 cur s = [cur +:+ s].
Proof.
  induction s as [|c s IH]; intros cur Hs.
  - simpl. now rewrite append_empty_r.
  - simpl in Hs. apply andb_true_iff in Hs as (Hc & Hs).
    rewrite split_comma_cons, Ascii.eqb_sym.
    apply negb_true_iff in Hc. rewrite Hc, (IH _ Hs), append_snoc.
    reflexivity.
Qed.

(** No piece of [split(",")] holds a comma. *)
Lemma split_comma_pieces (s : string) :
  forall cur : string,
  no_comma cur = true ->
  Forall (fun p => no_comma p = true) (PyStr.split_from "," 0 cur s).
Proof.
  induction s as [|c s IH]; intros cur Hcur.
  - repeat constructor. exact Hcur.
  - rewrite split_comma_cons. destruct (Ascii.eqb "," c) eqn:Hc.
    + constructor; [exact Hcur|]. apply IH. reflexivity.
    + apply IH, all_chars_snoc; [exact Hcur|].
      rewrite Ascii.eqb_sym, Hc. reflexivity.
Qed.

Lemma split_comma_not_nil (s : string) :
  forall cur : string, PyStr.split_from "," 0 cur s <> [].
Proof.
  induction s as [|c s IH]; intros cur; [discriminate|].
  rewrite split_comma_cons. destruct (Ascii.eqb "," c); [discriminate|apply IH].
Qed.

(** A string without a comma holds no [", "]. *)
Lemma no_comma_no_sep (s : string) :
  no_comma s = true -> PyStr.contains ", " s = false.
Proof.
  induction s as [|c s IH]; [reflexivity|]. intros Hs.
  simpl in Hs. apply andb_true_iff in Hs as (Hc & Hs).
  change (String.prefix ", " (String c s) || PyStr.contains ", " s = false).
  rewrite (IH Hs), orb_false_r, prefix_sep, Ascii.eqb_sym.
  apply negb_true_iff in Hc. now rewrite Hc.
Qed.

(** The pieces of [split()] hold only characters of the string. *)
Lemma split_ws_from_chars (p : ascii -> bool) (s : string) :
  forall cur : string,
  all_chars p cur = true -> all_chars p s = true ->
  Forall (fun t => all_chars p t = true) (PyStr.split_ws_from cur s).
Proof.
  induction s as [|c s IH]; intros cur Hcur Hs.
  - simpl. destruct cur; repeat constructor. exact Hcur.
  - simpl in Hs. apply andb_true_iff in Hs as (Hc & Hs).
    simpl. destruct (PyStr.isspace c).
    + specialize (IH "" eq_refl Hs).
      destruct cur; [exact IH|]. constructor; [exact Hcur|exact IH].
    + apply IH; [apply all_chars_snoc; assumption|exact Hs].
Qed.

(** X12: the command line hands to [set] only pieces without a comma, so
    [set] decodes each of them at whitespace: when such a piece is accepted,
    the key and the value are not empty and hold neither whitespace nor a
    comma.  The form ["key, value"] is out of reach of the command [SET]. *)
Theorem cli_pieces_are_words (cmd_vals piece : string) :
  piece ∈ map PyText.strip (PyStr.split "," (PyText.strip cmd_vals)) ->
  no_comma piece = true /\
  tokens piece = PyStr.split_ws piece /\
  forall k v, parse_pair piece = Some (k, v) ->
    (k <> "" /\ no_space k = true /\ no_comma k = true) /\
    (v <> "" /\ no_space v = true /\ no_comma v = true).
Proof.
  intros Hin. apply list_elem_of_fmap in Hin as (raw & -> & Hraw).
  assert (Hnc : no_comma (PyText.strip raw) = true).
  { apply all_chars_strip.
    pose proof (split_comma_pieces (PyText.strip cmd_vals) "" eq_refl) as Hf.
    rewrite Forall_forall in Hf. exact (Hf raw Hraw). }
  split; [exact Hnc|].
  assert (Htok : tokens (PyText.strip raw) = PyStr.split_ws (PyText.strip raw)).
  { unfold tokens. now rewrite (no_comma_no_sep _ Hnc). }
  split; [exact Htok|].
  intros k v Hp.
  apply parse_pair_tokens in Hp. rewrite Htok in Hp.
  pose proof (split_ws_from_words (PyText.strip raw) "" eq_refl) as Hw.
  pose proof (split_ws_from_chars (fun c => negb (Ascii.eqb c ","))
                (PyText.strip raw) "" eq_refl Hnc) as Hf.
  unfold PyStr.split_ws in Hp. rewrite Hp in Hw, Hf.
  inversion Hw as [|? ? (Hk0 & Hk) Hw']. inversion Hw' as [|? ? (Hv0 & Hv) _].
  inversion Hf as [|? ? Hkc Hf']. inversion Hf' as [|? ? Hvc _].
  auto.
Qed.

Lemma cli_pieces_are_words_witness :
  "name John" ∈ map PyText.strip
                  (PyStr.split "," (PyText.strip " name John , 10 ")) /\
  parse_pair "name John" = Some ("name", "John") /\
  tokens "name John" = PyStr.split_ws "name John" /\
  no_comma "name" = true /\ no_comma "John" = true.
Proof.
  assert (Hin : "name John" ∈ map PyText.strip
                  (PyStr.split "," (PyText.strip " name John , 10 ")))
    by (vm_compute; left).
  destruct (cli_pieces_are_words " name John , 10 " "name John" Hin)
    as (_ & Htok & Hkv).
  destruct (Hkv "name" "John" eq_refl) as ((_ & _ & Hk) & (_ & _ & Hv)).
  split; [exact Hin|]. split; [reflexivity|]. split; [exact Htok|].
  split; [exact Hk|exact Hv].
Defined.

(** ** The command line: one turn of the loop *)

Lemma nth_1_or_empty (parts : list string) :
  (if (1 <? length parts)%nat then nth 1 parts "" else "") = nth 1 parts "".
Proof. destruct parts as [|a [|b l]]; reflexivity. Qed.

Lemma turn_blank (int : string -> result Z) (line : string)
  (s : PyRedisCLI.Session) :
  PyText.strip line = "" ->
  PyRedisCLI.turn int line s
  = (Ok false, snd (PyRedisCLI.say PyRedisCLI.Msg_prompt s)).
Proof.
  intros Hl. unfold PyRedisCLI.turn, PyRedisCLI.try_except_as, bind.
  simpl. rewrite Hl. reflexivity.
Qed.

Lemma turn_set (int : string -> result Z) (line : string)
  (s : PyRedisCLI.Session) :
  PyText.strip line <> "" ->
  command_word line = PyText.codes "SET" ->
  PyRedisCLI.turn int line s
  = PyRedisCLI.try_except_as
      (do! PyRedisCLI.say PyRedisCLI.Msg_prompt in
       do! PyRedisCLI.run_set int (command_args line) in
       ret false)
      report s.
Proof.
  intros Hl Hc. unfold PyRedisCLI.turn, command_word, command_args in *.
  destruct (PyText.strip line) as [|c r] eqn:E; [congruence|].
  unfold PyRedisCLI.is_command. rewrite Hc, nth_1_or_empty.
  rewrite bool_decide_eq_true_2 by reflexivity. reflexivity.
Qed.

Lemma turn_other (int : string -> result Z) (line : string)
  (s : PyRedisCLI.Session) :
  PyText.strip line <> "" ->
  command_word line <> PyText.codes "SET" ->
  PyRedisCLI.turn int line s
  = PyRedisCLI.try_except_as
      (do! PyRedisCLI.say PyRedisCLI.Msg_prompt in
       PyRedisCLI.run_other (command_word line) (command_args line))
      report s.
Proof.
  intros Hl Hc. unfold PyRedisCLI.turn, command_word, command_args in *.
  destruct (PyText.strip line) as [|c r] eqn:E; [congruence|].
  unfold PyRedisCLI.is_command at 1. rewrite nth_1_or_empty.
  rewrite bool_decide_eq_false_2 by exact Hc. reflexivity.
Qed.

Lemma set_nothing (ttl : option Z) (m : Machine) :
  set [] ttl m = (Ok tt, autosaved m).
Proof. unfold set, bind, gets. simpl. apply autosave_eq. Qed.

(** X13: a [SET] command whose arguments hold no comma stores nothing, as
    [SET name John]: the only piece is taken for the TTL.  When [int]
    rejects it the error is printed; when [int] accepts it [set] is called
    without a pair.  Either way the turn ends normally and the store of the
    session is what it was. *)
Theorem cli_set_without_comma (int : string -> result Z) (line : string)
  (s : PyRedisCLI.Session) :
  PyText.strip line <> "" ->
  command_word line = PyText.codes "SET" ->
  no_comma (command_args line) = true ->
  fst (PyRedisCLI.turn int line s) = Ok false /\
  redis_of (snd (PyRedisCLI.turn int line s)) = redis_of s.
Proof.
  intros Hl Hc Hn. rewrite (turn_set int line s Hl Hc).
  unfold PyRedisCLI.try_except_as, bind at 1. simpl.
  unfold PyRedisCLI.run_set, PyStr.split.
  pose proof (all_chars_strip _ _ Hn) as Hn'.
  rewrite (split_comma_none _ "" Hn').
  change ("" +:+ PyText.strip (command_args line))
    with (PyText.strip (command_args line)).
  simpl. unfold bind at 2, lift.
  destruct (int (PyText.strip (PyText.strip (command_args line)))) as [ttl|e].
  - unfold bind, PyRedisCLI.on_redis. simpl.
    rewrite set_nothing. simpl. unfold redis_of. simpl.
    rewrite autosaved_self. auto.
  - simpl. auto.
Qed.

Lemma cli_set_without_comma_witness :
  PyText.strip "set name John" <> "" /\
  command_word "set name John" = PyText.codes "SET" /\
  no_comma (command_args "set name John") = true /\
  fst (PyRedisCLI.turn PyRedisCLI.int_decimal "set name John" session0)
  = Ok false /\
  redis_of (snd (PyRedisCLI.turn PyRedisCLI.int_decimal "set name John" session0))
  = redis_of session0.
Proof.
  assert (Hl : PyText.strip "set name John" <> "") by discriminate.
  destruct (cli_set_without_comma PyRedisCLI.int_decimal "set name John"
              session0 Hl eq_refl eq_refl) as (Ho & Hs).
  split; [exact Hl|]. split; [reflexivity|]. split; [reflexivity|].
  split; [exact Ho|exact Hs].
Defined.

(** A rejected pair at the end of a batch changes nothing but the output. *)
Lemma set_loop_snoc_rejected (bad : string) (l : list string) :
  forall (ttl : option Z) (m : Machine),
  parse_pair bad = None ->
  fst (set_loop (l ++ [bad]) ttl m) = fst (set_loop l ttl m) /\
  self (snd (set_loop (l ++ [bad]) ttl m)) = self (snd (set_loop l ttl m)).
Proof.
  induction l as [|kv l IH]; intros ttl m Hbad.
  - change ([] ++ [bad]) with [bad].
    rewrite set_loop_cons, (set_pair_rejected m bad ttl Hbad). simpl.
    rewrite print_if_verbose_self. auto.
  - change ((kv :: l) ++ [bad]) with (kv :: (l ++ [bad])).
    rewrite !set_loop_cons.
    destruct (try_except _ _ _ m) as [[ttl'|ex] m1]; [|auto].
    apply IH, Hbad.
Qed.

Lemma set_snoc_rejected (bad : string) (l : list string) (ttl : option Z)
  (m : Machine) :
  parse_pair bad = None ->
  outcome (set (l ++ [bad]) ttl) m = outcome (set l ttl) m /\
  self (after (set (l ++ [bad]) ttl) m) = self (after (set l ttl) m).
Proof.
  intros Hbad.
  destruct (set_loop_snoc_rejected bad l ttl m Hbad) as (Ho & Hs).
  unfold outcome, after, set, bind.
  destruct (set_loop (l ++ [bad]) ttl m) as [r1 m1].
  destruct (set_loop l ttl m) as [r2 m2]. simpl in *. subst r2.
  destruct r1 as [[]|ex]; simpl; [|auto].
  unfold gets. simpl. rewrite !autosave_eq. simpl.
  rewrite !autosaved_self. auto.
Qed.

(** X14: when the arguments of [SET] are an odd number of pieces and one
    more that does not decode as a pair, as [SET name John, 10], the last
    piece is not read as a TTL: the call is [set] of all the pieces with
    [ttl=None], the store ends as [set] of the pieces before the last leaves
    it, with the default TTL, and the turn ends normally. *)
Theorem cli_ttl_taken_for_pair (int : string -> result Z) (line : string)
  (s : PyRedisCLI.Session) (l : list string) (bad : string) :
  PyText.strip line <> "" ->
  command_word line = PyText.codes "SET" ->
  map PyText.strip (PyStr.split "," (PyText.strip (command_args line)))
  = l ++ [bad] ->
  Nat.Odd (length l) ->
  parse_pair bad = None ->
  fst (PyRedisCLI.turn int line s) = Ok false /\
  redis_of (snd (PyRedisCLI.turn int line s))
  = self (after (set l None) (machine_of s)).
Proof.
  intros Hl Hc Hpieces (n & Hodd) Hbad. rewrite (turn_set int line s Hl Hc).
  unfold PyRedisCLI.try_except_as, bind at 1. simpl.
  unfold PyRedisCLI.run_set.
  assert (Hlen : (1 <=? length (PyStr.split ","
                          (PyText.strip (command_args line))))%nat = true).
  { apply Nat.leb_le.
    pose proof (split_comma_not_nil (PyText.strip (command_args line)) "").
    unfold PyStr.split. destruct (PyStr.split_from _ _ _ _); [congruence|].
    simpl. lia. }
  rewrite Hlen, Hpieces.
  assert (Heven : (length (l ++ [bad]) mod 2 =? 1)%nat = false).
  { rewrite length_app, Hodd. simpl length.
    replace (2 * n + 1 + 1)%nat with ((n + 1) * 2)%nat by lia.
    now rewrite Nat.Div0.mod_mul. }
  rewrite Heven.
  destruct (set_snoc_rejected bad l None (machine_of s) Hbad) as (Ho & Hs).
  unfold outcome, after in Ho, Hs.
  unfold bind, PyRedisCLI.on_redis, redis_of, machine_of in *. simpl.
  destruct (set (l ++ [bad]) None _) as [[[]|ex] m1]; simpl in *; auto.
Qed.

Lemma cli_ttl_taken_for_pair_witness :
  let line := "SET name John, 10" in
  let s' := snd (PyRedisCLI.turn PyRedisCLI.int_decimal line session0) in
  map PyText.strip (PyStr.split "," (PyText.strip (command_args line)))
  = ["name John"] ++ ["10"] /\
  parse_pair "10" = None /\
  fst (PyRedisCLI.turn PyRedisCLI.int_decimal line session0) = Ok false /\
  store (redis_of s') = PDict {["name" := PStr "John"]} /\
  expirations (redis_of s') = PDict {["name" := PNum 1100]}.
Proof.
  assert (Hl : PyText.strip "SET name John, 10" <> "") by discriminate.
  assert (Hodd : Nat.Odd (length ["name John"])) by (exists 0%nat; reflexivity).
  destruct (cli_ttl_taken_for_pair PyRedisCLI.int_decimal "SET name John, 10"
              session0 ["name John"] "10" Hl eq_refl eq_refl Hodd eq_refl)
    as (Ho & Hs).
  split; [reflexivity|]. split; [reflexivity|]. split; [exact Ho|].
  split; [exact (eq_trans (f_equal store Hs) eq_refl)|
          exact (eq_trans (f_equal expirations Hs) eq_refl)].
Defined.

(** ** The command line and the files *)

Lemma steady_files (f p : string) (m m' : Machine) :
  steady f m m' -> p <> f -> files (world m') !! p = files (world m) !! p.
Proof. intros (Hf & _) Hp. exact (Hf p Hp). Qed.

Lemma quiet_files (p : string) (m m' : Machine) :
  quiet m m' -> files (world m') !! p = files (world m) !! p.
Proof. intros (Hf & _). now rewrite Hf. Qed.

Lemma bind_ret_world {A B} (c : M PyRedisCLI.Session A) (b : B)
  (s : PyRedisCLI.Session) :
  PyRedisCLI.world (snd ((do! c in ret b) s)) = PyRedisCLI.world (snd (c s)).
Proof. unfold bind. destruct (c s) as [[a|e] s']; reflexivity. Qed.

Lemma on_redis_world {A} (c : M Machine A) (s : PyRedisCLI.Session) :
  PyRedisCLI.world (snd (PyRedisCLI.on_redis c s))
  = world (after c (machine_of s)).
Proof. reflexivity. Qed.

Lemma toggle_files (b : bool) (m : Machine) :
  files (world (after (do! modify (on_self (with_auto_save b)) in
                       print_if_verbose (Line_auto_save b)) m))
  = files (world m).
Proof.
  unfold after, bind, modify. simpl. rewrite print_if_verbose_eq. simpl.
  match goal with
  | |- context [after (print_if_verbose ?l) ?mm] =>
      destruct (print_if_verbose_world l mm) as (Hf & _)
  end.
  exact Hf.
Qed.

(** The branch for [SET] writes no file other than [pyredis_dump.json]. *)
Lemma run_set_files (int : string -> result Z) (cmd_vals p : string)
  (s : PyRedisCLI.Session) :
  p <> default_filename ->
  files (PyRedisCLI.world (snd (PyRedisCLI.run_set int cmd_vals s))) !! p
  = files (PyRedisCLI.world s) !! p.
Proof.
  intros Hp. unfold PyRedisCLI.run_set.
  destruct (1 <=? _)%nat; [|reflexivity].
  destruct (_ =? 1)%nat.
  - unfold bind at 1, lift. destruct (int _) as [ttl|e]; [|reflexivity].
    rewrite on_redis_world.
    exact (steady_files _ p _ _ (set_steady _ _ (machine_of s)) Hp).
  - rewrite on_redis_world.
    exact (steady_files _ p _ _ (set_steady _ _ (machine_of s)) Hp).
Qed.

(** The other commands but [SAVE] write no other file either. *)
Lemma run_other_files (cmd : list N) (cmd_vals p : string)
  (s : PyRedisCLI.Session) :
  p <> default_filename -> cmd <> PyText.codes "SAVE" ->
  files (PyRedisCLI.world (snd (PyRedisCLI.run_other cmd cmd_vals s))) !! p
  = files (PyRedisCLI.world s) !! p.
Proof.
  intros Hp Hc. unfold PyRedisCLI.run_other, PyRedisCLI.is_command.
  repeat case_bool_decide; try congruence.
  - rewrite bind_ret_world. destruct cmd_vals as [|c r]; [reflexivity|].
    rewrite bind_ret_world, on_redis_world.
    exact (steady_files _ p _ _ (get_steady _ (machine_of s)) Hp).
  - rewrite bind_ret_world. destruct cmd_vals as [|c r]; [reflexivity|].
    rewrite on_redis_world.
    exact (steady_files _ p _ _ (delete_steady _ (machine_of s)) Hp).
  - unfold bind at 1, gets. rewrite bind_ret_world, on_redis_world.
    exact (quiet_files p _ _ (load_quiet _ (machine_of s))).
  - rewrite bind_ret_world, on_redis_world.
    unfold enable_auto_save. now rewrite toggle_files.
  - rewrite bind_ret_world, on_redis_world.
    unfold disable_auto_save. now rewrite toggle_files.
  - reflexivity.
  - reflexivity.
Qed.

Lemma turn_files (int : string -> result Z) (line p : string)
  (s : PyRedisCLI.Session) :
  p <> default_filename -> command_word line <> PyText.codes "SAVE" ->
  files (PyRedisCLI.world (snd (PyRedisCLI.turn int line s))) !! p
  = files (PyRedisCLI.world s) !! p.
Proof.
  intros Hp Hc.
  destruct (decide (PyText.strip line = "")) as [Hl|Hl].
  - rewrite (turn_blank int line s Hl). reflexivity.
  - destruct (decide (command_word line = PyText.codes "SET")) as [Hs|Hs].
    + rewrite (turn_set int line s Hl Hs).
      unfold PyRedisCLI.try_except_as, bind at 1. simpl.
      pose proof (run_set_files int (command_args line) p
                    (snd (PyRedisCLI.say PyRedisCLI.Msg_prompt s)) Hp) as Hr.
      simpl in Hr. unfold bind.
      destruct (PyRedisCLI.run_set int (command_args line) _) as [[[]|e] s'];
        exact Hr.
    + rewrite (turn_other int line s Hl Hs).
      unfold PyRedisCLI.try_except_as, bind at 1. simpl.
      pose proof (run_other_files (command_word line) (command_args line) p
                    (snd (PyRedisCLI.say PyRedisCLI.Msg_prompt s)) Hp Hc) as Hr.
      simpl in Hr.
      destruct (PyRedisCLI.run_other _ _ _) as [[b|e] s']; exact Hr.
Qed.

(** X15: as long as no command is [SAVE], the command line changes no file
    other than [pyredis_dump.json]: when it was started on another save
    file, that file is not touched by [SET], [DELETE] or any other command,
    whatever was typed and whatever [int] returns. *)
Theorem cli_save_file_untouched (int : string -> result Z)
  (lines : list string) (s : PyRedisCLI.Session) (p : string) :
  p <> default_filename ->
  Forall (fun line => command_word line <> PyText.codes "SAVE") lines ->
  files (PyRedisCLI.world (snd (PyRedisCLI.run int lines s))) !! p
  = files (PyRedisCLI.world s) !! p.
Proof.
  intros Hp Hlines. unfold PyRedisCLI.run, bind at 1. simpl.
  set (s0 := PyRedisCLI.mkSession _ _ _).
  change (files (PyRedisCLI.world s)) with (files (PyRedisCLI.world s0)).
  clearbody s0. revert s0.
  induction Hlines as [|line rest Hline _ IH]; intros s0; [reflexivity|].
  simpl. unfold bind.
  pose proof (turn_files int line p s0 Hp Hline) as Ht.
  destruct (PyRedisCLI.turn int line s0) as [[[|]|e] s1]; simpl in *;
    try exact Ht.
  rewrite IH. exact Ht.
Qed.

Lemma cli_save_file_untouched_witness :
  let lines := ["set a b, c d"; "get a"; "delete c"] in
  let s' := snd (PyRedisCLI.run PyRedisCLI.int_decimal lines session0) in
  "my.json" <> default_filename /\
  Forall (fun line => command_word line <> PyText.codes "SAVE") lines /\
  store (redis_of s') = PDict {["a" := PStr "b"]} /\
  files (PyRedisCLI.world s') !! "my.json" = None /\
  is_Some (files (PyRedisCLI.world s') !! default_filename).
Proof.
  assert (Hp : "my.json" <> default_filename) by discriminate.
  assert (Hl : Forall (fun line => command_word line <> PyText.codes "SAVE")
                 ["set a b, c d"; "get a"; "delete c"])
    by (repeat constructor; discriminate).
  pose proof (cli_save_file_untouched PyRedisCLI.int_decimal _ session0
                "my.json" Hp Hl) as Hf.
  split; [exact Hp|]. split; [exact Hl|]. split; [vm_compute; reflexivity|].
  split; [exact Hf|]. vm_compute. eauto.
Defined.

(** ** Starting and leaving the command line *)

(** X16: the command line builds its store with [auto_save] set.  When the
    save file does not exist the store starts empty and the world is as it
    was; when it holds a JSON object with both fields these become [store]
    and [expirations]; when it is not JSON, [__init__] raises
    [JSONDecodeError]: the command line does not start. *)
Theorem cli_init (path : string) (expiration_time : Z) (verbose : bool)
  (w : World) :
  let r := PyRedisCLI.init path expiration_time verbose w in
  (files w !! path = None ->
   fst r = Ok tt /\
   redis_of (snd r) = init expiration_time true verbose /\
   files (PyRedisCLI.world (snd r)) = files w /\
   stdout (PyRedisCLI.world (snd r)) = stdout w) /\
  (forall d st ex,
   files w !! path = Some (JSON (PDict d)) ->
   d !! "store" = Some st -> d !! "expirations" = Some ex ->
   fst r = Ok tt /\
   redis_of (snd r) = mk st ex true expiration_time verbose) /\
  (forall txt, files w !! path = Some (NotJSON txt) ->
   fst r = Raise JSONDecodeError).
Proof.
  unfold PyRedisCLI.init, PyRedisCLI.blank, bind, gets. simpl.
  split; [|split].
  - intros Hf. rewrite Hf. destruct verbose; simpl; auto.
  - intros d st ex Hf Hst Hex. rewrite Hf.
    unfold PyRedisCLI.on_redis, redis_of. simpl.
    rewrite (load_both _ path (PDict d) st ex); simpl;
      [|exact Hf|rewrite Hst; reflexivity|rewrite Hex; reflexivity].
    rewrite print_if_verbose_self. auto.
  - intros txt Hf. rewrite Hf. unfold PyRedisCLI.on_redis. simpl.
    rewrite (load_not_json _ path txt); [reflexivity|exact Hf].
Qed.

Lemma cli_init_witness :
  files world0 !! "my.json" = None /\
  redis_of (snd (PyRedisCLI.init "my.json" 100 false world0))
  = init 100 true false /\
  files (world hand_edited) !! "f.json"
  = Some (JSON (PDict (<["store" := PDict {["x" := PStr "1"]}]>
                         (<["expirations" := PDict ∅]> ∅)))) /\
  store (redis_of (snd (PyRedisCLI.init "f.json" 100 false (world hand_edited))))
  = PDict {["x" := PStr "1"]}.
Proof.
  destruct (cli_init "my.json" 100 false world0) as (Hnone & _).
  destruct (cli_init "f.json" 100 false (world hand_edited)) as (_ & Hboth & _).
  destruct (Hnone eq_refl) as (_ & Hs & _).
  destruct (Hboth _ (PDict {["x" := PStr "1"]}) (PDict ∅) eq_refl eq_refl eq_refl)
    as (_ & Hl).
  split; [reflexivity|]. split; [exact Hs|]. split; [reflexivity|].
  exact (f_equal store Hl).
Defined.

Lemma caught_then_false {A} (c : M PyRedisCLI.Session A)
  (s : PyRedisCLI.Session) :
  fst (PyRedisCLI.try_except_as (do! c in ret false) report s) = Ok false.
Proof.
  unfold PyRedisCLI.try_except_as, bind at 1.
  destruct (c s) as [[a|e] s']; reflexivity.
Qed.

Lemma run_other_stops (cmd : list N) (cmd_vals : string)
  (s : PyRedisCLI.Session) :
  fst (PyRedisCLI.try_except_as (PyRedisCLI.run_other cmd cmd_vals) report s)
  = Ok (bool_decide (cmd = PyText.codes "EXIT")).
Proof.
  unfold PyRedisCLI.run_other, PyRedisCLI.is_command.
  repeat case_bool_decide; subst;
    try discriminate; try apply caught_then_false; reflexivity.
Qed.

Lemma turn_stops (int : string -> result Z) (line : string)
  (s : PyRedisCLI.Session) :
  fst (PyRedisCLI.turn int line s)
  = Ok (bool_decide (command_word line = PyText.codes "EXIT")).
Proof.
  destruct (decide (PyText.strip line = "")) as [Hl|Hl].
  - rewrite (turn_blank int line s Hl). unfold command_word. rewrite Hl.
    reflexivity.
  - destruct (decide (command_word line = PyText.codes "SET")) as [Hs|Hs].
    + rewrite (turn_set int line s Hl Hs), Hs.
      unfold PyRedisCLI.try_except_as, bind at 1. simpl.
      apply (caught_then_false (PyRedisCLI.run_set int (command_args line))).
    + rewrite (turn_other int line s Hl Hs).
      unfold PyRedisCLI.try_except_as, bind at 1. simpl.
      apply run_other_stops.
Qed.

Lemma run_lines_upto_exit (int : string -> result Z) (l1 l2 : list string)
  (line : string) :
  command_word line = PyText.codes "EXIT" ->
  forall s : PyRedisCLI.Session,
  PyRedisCLI.run_lines int (l1 ++ line :: l2) s
  = PyRedisCLI.run_lines int (l1 ++ [line]) s.
Proof.
  intros Hx. induction l1 as [|a l1 IH]; intros s; simpl; unfold bind.
  - pose proof (turn_stops int line s) as Ht.
    rewrite bool_decide_eq_true_2 in Ht by exact Hx.
    destruct (PyRedisCLI.turn int line s) as [[[|]|e] s']; simpl in Ht;
      try discriminate; reflexivity.
  - destruct (PyRedisCLI.turn int a s) as [[[|]|e] s']; try reflexivity.
    apply IH.
Qed.

(** X17: a turn of the loop never raises: every exception of a command is
    caught and reported.  The loop ends exactly at a line whose first word
    is [EXIT] in upper or lower case, and what follows that line is not
    read. *)
Theorem cli_stops_at_exit (int : string -> result Z) (line : string)
  (s : PyRedisCLI.Session) (l1 l2 : list string) :
  fst (PyRedisCLI.turn int line s)
  = Ok (bool_decide (command_word line = PyText.codes "EXIT")) /\
  (command_word line = PyText.codes "EXIT" ->
   PyRedisCLI.run int (l1 ++ line :: l2) s
   = PyRedisCLI.run int (l1 ++ [line]) s /\
   (Forall (fun l => command_word l <> PyText.codes "EXIT") l1 ->
    fst (PyRedisCLI.run int (l1 ++ line :: l2) s) = Ok true)).
Proof.
  split; [apply turn_stops|]. intros Hx. split.
  - unfold PyRedisCLI.run, bind. simpl. apply run_lines_upto_exit, Hx.
  - intros Hl1. unfold PyRedisCLI.run, bind at 1. simpl.
    set (s0 := PyRedisCLI.mkSession _ _ _). clearbody s0. revert s0.
    induction Hl1 as [|a l1 Ha _ IH]; intros s0; simpl; unfold bind.
    + pose proof (turn_stops int line s0) as Ht.
      rewrite bool_decide_eq_true_2 in Ht by exact Hx.
      destruct (PyRedisCLI.turn int line s0) as [[[|]|e] s']; simpl in Ht;
        try discriminate; reflexivity.
    + pose proof (turn_stops int a s0) as Ht.
      rewrite bool_decide_eq_false_2 in Ht by exact Ha.
      destruct (PyRedisCLI.turn int a s0) as [[[|]|e] s']; simpl in Ht;
        try discriminate. apply IH.
Qed.

Lemma cli_stops_at_exit_witness :
  command_word "  exit now" = PyText.codes "EXIT" /\
  fst (PyRedisCLI.run PyRedisCLI.int_decimal
         (["get a"] ++ "  exit now" :: ["set a b, c d"]) session0) = Ok true /\
  store (redis_of (snd (PyRedisCLI.run PyRedisCLI.int_decimal
                          (["get a"] ++ "  exit now" :: ["set a b, c d"])
                          session0)))
  = PDict ∅.
Proof.
  destruct (cli_stops_at_exit PyRedisCLI.int_decimal "  exit now" session0
              ["get a"] ["set a b, c d"]) as (_ & Hx).
  destruct (Hx eq_refl) as (Heq & Htrue).
  split; [reflexivity|]. split.
  - apply Htrue. repeat constructor. discriminate.
  - rewrite Heq. vm_compute. reflexivity.
Defined.

(** X18: [split(',')] never returns an empty list, so the test that guards
    the branch for [SET] always holds: the message that [SET] requires a
    key and a value is never printed, and the branch prints nothing itself,
    whatever the arguments. *)
Theorem cli_set_usage_is_dead (int : string -> result Z) (cmd_vals : string)
  (s : PyRedisCLI.Session) :
  (1 <=? length (PyStr.split "," (PyText.strip cmd_vals)))%nat = true /\
  PyRedisCLI.console (snd (PyRedisCLI.run_set int cmd_vals s))
  = PyRedisCLI.console s.
Proof.
  assert (Hlen : (1 <=? length (PyStr.split "," (PyText.strip cmd_vals)))%nat
                 = true).
  { apply Nat.leb_le.
    pose proof (split_comma_not_nil (PyText.strip cmd_vals) "").
    unfold PyStr.split. destruct (PyStr.split_from _ _ _ _); [congruence|].
    simpl. lia. }
  split; [exact Hlen|].
  unfold PyRedisCLI.run_set. rewrite Hlen.
  destruct (_ =? 1)%nat; [|reflexivity].
  unfold bind, lift. destruct (int _); reflexivity.
Qed.
